(** * pvlib.solarposition.ephemeris: a shallow embedding and its properties

    The Python-native solar position calculator of [pvlib/solarposition.py]
    ([ephemeris], lines 212-379) is embedded here line by line.

    Numbers.  The code computes with numpy [float64] arrays.  The embedding
    reads every float as a real number ([R]) and every array as a list of
    reals, so the statements below are statements about the formulas the
    code evaluates.  Rounding of binary64 arithmetic is outside the
    model, with two exceptions (module [Binary64]): the sum of line 344,
    whose rounding decides whether an azimuth of 360 can be returned, and
    the ecliptic longitude of line 331, whose rounding decides whether
    the hour angle can be -180 ([EcLon_binary64], beside the [EcLon] of
    the formulas).
    The calendar fields of the UTC index ([year], [dayofyear], [hour], ...)
    are integers ([Z]).

    Control.  The only loop of [ephemeris] is the Kepler iteration of lines
    324-326.  It is embedded with a fuel argument; running out of fuel is
    the outcome [Running] (the loop is still executing), which is not an
    outcome of the Python code but the trace of a prefix of its run.

    Objects.  [ephemeris] is embedded a second time, on a store of
    objects (module [Store]), where the arrays it updates in place and
    the frame it returns are objects with addresses.

    The other functions.  [get_solarposition], [spa], [_ephem_setup] and
    [pyephem] are embedded over the routines they call outside the
    module, which are parameters.  [calc_time] (a root search of
    [scipy.optimize] over [pvlib.tools] dates) and
    [pyephem_earthsun_distance] are not embedded. *)

From Stdlib Require Import Reals Lra Lia ZArith List Bool.
From Stdlib Require String.
Import String.StringSyntax.
Delimit Scope string_scope with string.
Import ListNotations.
Open Scope R_scope.

(* ================================================================== *)
(** * Part I: definitions                                              *)
(* ================================================================== *)

(** ** Outcomes of a run *)

(** The built-in exceptions the functions of the module can raise. *)
Inductive exn : Type :=
| ValueError          (* np.max of a zero-size array, line 324; a method
                         that is no calculator, line 55 *)
| ZeroDivisionError   (* 283/(273. + temperature), line 366 *)
| AttributeError      (* an argument that is not the object whose
                         attributes the body reads, lines 276-296 *)
| ImportError         (* spa_py is not compiled, lines 91-95 *)
| KeyError.           (* a column the frame does not have, line 120 *)

Inductive outcome (A : Type) : Type :=
| Returned (a : A)
| Raised (e : exn)
| Running.

Arguments Returned {A} a.
Arguments Raised {A} e.
Arguments Running {A}.

Definition bind {A B : Type} (m : outcome A) (k : A -> outcome B) : outcome B :=
  match m with
  | Returned a => k a
  | Raised e => Raised e
  | Running => Running
  end.

Notation "x <- m ;; k" := (bind m (fun x => k))
  (at level 61, m at next level, right associativity).

(** ** numpy primitives on reals and arrays *)

Module NumPy.

(** Comparisons as the boolean masks numpy builds. *)
Definition gt (x y : R) : bool := if Rgt_dec x y then true else false.
Definition lt (x y : R) : bool := if Rlt_dec x y then true else false.
Definition le (x y : R) : bool := if Rle_dec x y then true else false.

(** [True] counts as 1 and [False] as 0 in arithmetic (line 340). *)
Definition of_bool (b : bool) : R := if b then 1 else 0.

(** [np.floor]. *)
Definition floor (x : R) : R := IZR (Int_part x).

(** [np.mod(x, y)]: the remainder has the sign of the divisor,
    [x - floor(x / y) * y]. *)
Definition mod_ (x y : R) : R := x - floor (x / y) * y.

(** [np.radians] and [np.degrees]. *)
Definition radians (x : R) : R := x * (PI / 180).
Definition degrees (x : R) : R := x * (180 / PI).

(** [np.arctan2(y, x)]: the angle of the point [(x, y)], in (-pi, pi]. *)
Definition arctan2 (y x : R) : R :=
  if Rlt_dec 0 x then atan (y / x)
  else if Rlt_dec x 0 then
    (if Rle_dec 0 y then atan (y / x) + PI else atan (y / x) - PI)
  else
    (if Rlt_dec 0 y then PI / 2 else if Rlt_dec y 0 then - (PI / 2) else 0).

(** [np.arcsin]; its argument is shown to stay in [-1, 1] where the
    code calls it. *)
Definition arcsin (x : R) : R := asin x.

(** Elementwise binary operation on two arrays of the same shape. *)
Fixpoint zipWith {A B C : Type} (f : A -> B -> C)
         (l1 : list A) (l2 : list B) : list C :=
  match l1, l2 with
  | a :: l1', b :: l2' => f a b :: zipWith f l1' l2'
  | _, _ => []
  end.

Definition vadd : list R -> list R -> list R := zipWith Rplus.
Definition vsub : list R -> list R -> list R := zipWith Rminus.
Definition vmul : list R -> list R -> list R := zipWith Rmult.
Definition vabs : list R -> list R := map Rabs.

(** A scalar broadcast against an array of the shape of [l]. *)
Definition broadcast {A : Type} (c : R) (l : list A) : list R :=
  map (fun _ => c) l.

(** [np.max]: the largest element; there is none in a zero-size array,
    where numpy raises [ValueError]. *)
Definition max (l : list R) : outcome R :=
  match l with
  | [] => Raised ValueError
  | x :: l' => Returned (fold_left Rmax l' x)
  end.

End NumPy.

(** ** The Kepler iteration (lines 321-326)

<<
    EccenAnom = MeanAnom
    E = 0
    while np.max(abs(EccenAnom - E)) > 0.0001:
        E = EccenAnom
        EccenAnom = MeanAnom + np.degrees(Eccen) * (np.sin(np.radians(E)))
>>
*)

Module Kepler.
Import NumPy.

(** The value of the loop variables [E] and [EccenAnom]. *)
Record state : Type := { E : list R; EccenAnom : list R }.

(** The loop condition's left-hand side, [np.max(abs(EccenAnom - E))]. *)
Definition residual (s : state) : outcome R :=
  NumPy.max (vabs (vsub (EccenAnom s) (E s))).

(** One execution of the loop body. *)
Definition body (MeanAnom Eccen : list R) (s : state) : state :=
  let E := EccenAnom s in
  {| E := E;
     EccenAnom :=
       vadd MeanAnom (vmul (map degrees Eccen) (map sin (map radians E))) |}.

(** The [while] loop started in state [s]; [fuel] bounds the number of
    executions of the body that are followed. *)
Fixpoint loop (fuel : nat) (MeanAnom Eccen : list R) (s : state)
  : outcome state :=
  r <- residual s ;;
  if gt r 0.0001 then
    match fuel with
    | O => Running
    | S fuel' => loop fuel' MeanAnom Eccen (body MeanAnom Eccen s)
    end
  else Returned s.

(** Lines 321-322: [EccenAnom = MeanAnom], [E = 0] (a scalar, which the
    subtraction of line 324 broadcasts). *)
Definition init (MeanAnom : list R) : state :=
  {| E := broadcast 0 MeanAnom; EccenAnom := MeanAnom |}.

Definition solve (fuel : nat) (MeanAnom Eccen : list R) : outcome state :=
  loop fuel MeanAnom Eccen (init MeanAnom).

End Kepler.

(** ** The inputs and the output table *)

(** The calendar fields of one element of [time_utc] that lines 289-296
    read.  Converting [time] to UTC ([localize_to_utc], line 286) belongs
    to [pvlib.tools]; the embedding starts from the UTC fields. *)
Record Timestamp : Type := {
  year : Z;
  dayofyear : Z;
  hour : Z;
  minute : Z;
  second : Z;
  microsecond : Z
}.

(** The fields of a pandas [Timestamp]: pandas represents instants from
    1677-09-21 to 2262-04-11. *)
Definition valid_timestamp (t : Timestamp) : bool :=
  ((1677 <=? year t) && (year t <=? 2262) &&
   (1 <=? dayofyear t) && (dayofyear t <=? 366) &&
   (0 <=? hour t) && (hour t <=? 23) &&
   (0 <=? minute t) && (minute t <=? 59) &&
   (0 <=? second t) && (second t <=? 59) &&
   (0 <=? microsecond t) && (microsecond t <=? 999999))%Z.

(** The attributes of [location] that [ephemeris] computes with. *)
Record Location : Type := {
  latitude : R;
  longitude : R
}.

(** One row of the returned [DataFrame] (lines 371-377). *)
Record SolarPosition : Type := {
  elevation : R;
  azimuth : R;
  zenith : R;
  apparent_elevation : R;
  apparent_zenith : R;
  solar_time : R
}.

(** ** Rounding to binary64

    Two statements turn on the rounding of one line: whether an azimuth
    can be 360 on the sum of line 344, and whether the hour angle can be
    -180 on the ecliptic longitude of line 331.  For these lines the
    rounding of binary64 is embedded: to nearest, ties to even, with 53
    significant bits.  Overflow and subnormal numbers, which the values
    of these lines are far from, are left out. *)

Module Binary64.

(** The integer nearest to [y]; of two equally near, the even one. *)
Definition nearest_even (y : R) : Z :=
  let n := Int_part y in
  let f := y - IZR n in
  if Rlt_dec f (1 / 2) then n
  else if Rlt_dec (1 / 2) f then (n + 1)%Z
  else if Z.even n then n else (n + 1)%Z.

(** The exponent [e] with [2^e <= |x| < 2^(e+1)]. *)
Definition exponent (x : R) : Z := Int_part (ln (Rabs x) / ln 2).

(** The number of binary64 nearest to [x]: a multiple of
    [2^(exponent x - 52)]. *)
Definition round (x : R) : R :=
  if Req_dec_T x 0 then 0
  else IZR (nearest_even (x * powerRZ 2 (52 - exponent x)))
       * powerRZ 2 (exponent x - 52).

(** Line 279, [Abber = 20 / 3600.], as the number of binary64 it is. *)
Definition Abber : R := round (20 / 3600).

End Binary64.

(** ** Lines of the body that later statements single out *)

Module Line.
Import NumPy.

(** Line 309. *)
Definition local_sidereal_time (GMSTi Longitude : R) : R :=
  mod_ (360 + GMSTi - Longitude) 360.

(** Line 331. *)
Definition ecliptic_longitude (MlPerigee TrueAnom Abber : R) : R :=
  mod_ (MlPerigee + TrueAnom) 360 - Abber.

(** Line 340: [HrAngle - (360 * ((abs(HrAngle) > 180)))]. *)
Definition wrap_hour_angle (HrAngle : R) : R :=
  HrAngle - (360 * of_bool (gt (Rabs HrAngle) 180)).

(** Line 344: [SunAz[SunAz < 0] += 360], on one element; the sum is a
    binary64 number. *)
Definition add_360_where_negative (SunAz : R) : R :=
  if lt SunAz 0 then Binary64.round (SunAz + 360) else SunAz.

(** Line 366, right-hand side.  With the default [temperature] of the
    signature, or any other Python int or float, [283/(273. + temperature)]
    is a Python float division, which raises at a zero divisor; that is
    the case embedded.  A [numpy.float64] or a pandas object divides to
    an infinity instead and the call returns: at a temperature of -273
    the outcome [Raised ZeroDivisionError] is that of the Python numbers
    only. *)
Definition refraction_scale (pressure temperature : R) : outcome R :=
  if Req_dec_T (273 + temperature) 0 then Raised ZeroDivisionError
  else Returned ((283 / (273 + temperature)) * (pressure / 101325) / 3600).

End Line.

(** ** Refraction (lines 352-366), on one element of [Elevation] *)

Section Refraction.
Import NumPy.

Variable Elevation : R.

Definition TanEl : R := tan (radians Elevation).

(** Line 355. *)
Definition Refract_355 : R := 0.

(** Lines 357-358: the elements under the mask are overwritten. *)
Definition Refract_358 : R :=
  if gt Elevation 5 && le Elevation 85
  then 58.1 / TanEl - 0.07 / (TanEl ^ 3) + 8.6e-05 / (TanEl ^ 5)
  else Refract_355.

(** Lines 360-362. *)
Definition Refract_362 : R :=
  if gt Elevation (-0.575) && le Elevation 5
  then Elevation *
       (-518.2 + Elevation * (103.4 + Elevation * (-12.79 + Elevation * 0.711)))
       + 1735
  else Refract_358.

(** Line 364. *)
Definition Refract_364 : R :=
  if gt Elevation (-1) && le Elevation (-0.575)
  then -20.774 / TanEl
  else Refract_362.

(** Line 366: [Refract *= scale]. *)
Definition Refract (scale : R) : R := Refract_364 * scale.

End Refraction.

(** ** The body of [ephemeris] on one element of the batch *)

Section Instant.
Import NumPy.

Variable location : Location.
Variable t : Timestamp.          (* an element of [time_utc] *)

(** Lines 276-280. *)
Definition Latitude : R := latitude location.
Definition Longitude : R := -1 * longitude location.
Definition Abber : R := 20 / 3600.
Definition LatR : R := radians Latitude.

(** Lines 289-300. *)
Definition DayOfYear : R := IZR (dayofyear t).
Definition DecHours : R :=
  IZR (hour t) + IZR (minute t) / 60 + IZR (second t) / 3600 +
  IZR (microsecond t) / 3600e6.
Definition UnivDate : R := DayOfYear.
Definition UnivHr : R := DecHours.
Definition Yr : R := IZR (year t) - 1900.
Definition YrBegin : R := 365 * Yr + floor ((Yr - 1) / 4) - 0.5.
Definition Ezero : R := YrBegin + UnivDate.
Definition T : R := Ezero / 36525.

(** Lines 303-306. *)
Definition GMST0_303 : R :=
  6 / 24 + 38 / 1440 +
  (45.836 + 8640184.542 * T + 0.0929 * T ^ 2) / 86400.
Definition GMST0 : R := 360 * (GMST0_303 - floor GMST0_303).
Definition GMSTi : R := mod_ (GMST0 + 360 * (1.0027379093 * UnivHr / 24)) 360.

(** Line 309. *)
Definition LocAST : R := Line.local_sidereal_time GMSTi Longitude.

(** Lines 311-320. *)
Definition EpochDate : R := Ezero + UnivHr / 24.
Definition T1 : R := EpochDate / 36525.
Definition ObliquityR : R :=
  radians (23.452294 - 0.0130125 * T1 - 1.64e-06 * T1 ^ 2 + 5.03e-07 * T1 ^ 3).
Definition MlPerigee : R :=
  281.22083 + 4.70684e-05 * EpochDate + 0.000453 * T1 ^ 2 + (3e-06 * T1 ^ 3).
Definition MeanAnom : R :=
  mod_ (358.47583 + 0.985600267 * EpochDate - 0.00015 * T1 ^ 2
        - 3e-06 * T1 ^ 3) 360.
Definition Eccen : R := 0.01675104 - 4.18e-05 * T1 - 1.26e-07 * T1 ^ 2.

(** The element of [EccenAnom] the loop of lines 324-326 leaves. *)
Variable EccenAnom : R.

(** Lines 328-336.  Where [EccenAnom] is 180 the half angle of line 329
    is the pole of the tangent: there [tan] of the standard library is 0
    and [TrueAnom] below is 0, while in binary64 [radians(180) / 2] lies
    just below the pole, the tangent is about 1.6e16 and the code gives
    180.  No statement of this file evaluates [TrueAnom] there. *)
Definition TrueAnom : R :=
  2 * mod_ (degrees (arctan2 (sqrt ((1 + Eccen) / (1 - Eccen)) *
                              tan (radians EccenAnom / 2)) 1)) 360.
Definition EcLon : R := Line.ecliptic_longitude MlPerigee TrueAnom Abber.
Definition EcLonR : R := radians EcLon.
Definition DecR : R := arcsin (sin ObliquityR * sin EcLonR).
Definition RtAscen : R :=
  degrees (arctan2 (cos ObliquityR * sin EcLonR) (cos EcLonR)).

(** Lines 338-340; [HrAngle] is assigned twice. *)
Definition HrAngle_338 : R := LocAST - RtAscen.
Definition HrAngleR : R := radians HrAngle_338.
Definition HrAngle : R := Line.wrap_hour_angle HrAngle_338.

(** Lines 342-344. *)
Definition SunAz_343 : R :=
  degrees (arctan2 (-1 * sin HrAngleR)
                   (cos LatR * tan DecR - sin LatR * cos HrAngleR)).
Definition SunAz : R := Line.add_360_where_negative SunAz_343.

(** Lines 346-350. *)
Definition SunEl_arg : R :=
  cos LatR * cos DecR * cos HrAngleR + sin LatR * sin DecR.
Definition SunEl : R := degrees (arcsin SunEl_arg).
Definition SolarTime : R := (180 + HrAngle) / 15.

(** The value of the right-hand side of line 366. *)
Variable scale : R.

(** Lines 353-368, with [Elevation = SunEl]. *)
Definition ApparentSunEl : R := SunEl + Refract SunEl scale.

(** Lines 371-377: the row of [DFOut] for this element. *)
Definition row : SolarPosition :=
  {| elevation := SunEl;
     azimuth := SunAz;
     zenith := 90 - SunEl;
     apparent_elevation := ApparentSunEl;
     apparent_zenith := 90 - ApparentSunEl;
     solar_time := SolarTime |}.

End Instant.

(** ** Lines 331-340 with the ecliptic longitude in binary64

    The sum [MlPerigee + TrueAnom] of line 331 is rounded; [np.mod]
    leaves the remainder of a number of binary64 by 360 exact; the
    difference with [Abber] is rounded.  Lines 334-340 follow on that
    value as in [RtAscen], [HrAngle_338] and [HrAngle]. *)




(** ** [ephemeris] (lines 212-379) *)

(** Lines 371-377 put the columns into a frame whose index is [time_utc]
    converted to [location.tz].  The arrays are stored by position.
    [ApparentSunEl] is a Series (through [Refract], line 355) and is
    stored by label (lines 375-376), which pandas refuses with a
    [ValueError] where the index repeats an instant and [location.tz] is
    not UTC.  The rows below are the rows by position: the embedding is
    that of the code on an index that repeats no instant. *)
Definition ephemeris (fuel : nat) (time_utc : list Timestamp)
           (location : Location) (pressure temperature : R)
  : outcome (list SolarPosition) :=
  let MeanAnom := map MeanAnom time_utc in
  let Eccen := map Eccen time_utc in
  s <- Kepler.solve fuel MeanAnom Eccen ;;
  scale <- Line.refraction_scale pressure temperature ;;
  Returned (NumPy.zipWith (fun t EccenAnom => row location t EccenAnom scale)
                          time_utc (Kepler.EccenAnom s)).

(** ** Predicates used in the statements *)

(** [P] holds of the elements at every index of four arrays of one shape. *)
Inductive Forall4 {A B C D : Type} (P : A -> B -> C -> D -> Prop)
  : list A -> list B -> list C -> list D -> Prop :=
| Forall4_nil : Forall4 P [] [] [] []
| Forall4_cons (a : A) (b : B) (c : C) (d : D)
               (la : list A) (lb : list B) (lc : list C) (ld : list D) :
    P a b c d -> Forall4 P la lb lc ld ->
    Forall4 P (a :: la) (b :: lb) (c :: lc) (d :: ld).

(** The update of line 326 on one element. *)
Definition kepler_step (MeanAnom Eccen E : R) : R :=
  MeanAnom + NumPy.degrees Eccen * sin (NumPy.radians E).

(** ** The refraction model as the specification tabulates it

    Section 4.4 of the specification: the raw value by elevation range,
    and the scale factor applied to every branch. *)

Definition refraction_table (e : R) : R :=
  let tan_e := tan (NumPy.radians e) in
  if Rlt_dec 5 e then
    if Rle_dec e 85
    then 58.1 / tan_e - 0.07 / tan_e ^ 3 + 8.6e-5 / tan_e ^ 5
    else 0
  else if Rlt_dec (-0.575) e then
    e * (-518.2 + e * (103.4 + e * (-12.79 + e * 0.711))) + 1735
  else if Rlt_dec (-1) e then
    -20.774 / tan_e
  else 0.

Definition scale_factor (temperature pressure : R) : R :=
  (283 / (273 + temperature)) * (pressure / 101325) / 3600.

(** ** A sample call

    Tucson, Arizona, on 17 October 2003 at 19:30 UTC, with the default
    [pressure] and [temperature] of the signature. *)

Definition tus : Location := {| latitude := 32.2; longitude := -111 |}.

Definition tus_time : Timestamp :=
  {| year := 2003; dayofyear := 290; hour := 19; minute := 30;
     second := 0; microsecond := 0 |}.

(** A site on the equator whose longitude puts the sun of [tus_time],
    for the eccentric anomaly [EccenAnom], on the local meridian. *)
Definition on_meridian (EccenAnom : R) : Location :=
  {| latitude := 0;
     longitude := RtAscen tus_time EccenAnom - GMSTi tus_time |}.

(** ** The objects of a call and the store they live in

    Python passes [time] and [location] by reference, and several lines
    of the body update an object in place (lines 344, 357-366, 372-377)
    or bind a second name to an object (lines 321, 325, 353).  The
    definitions below run the body on a store of objects.  Every numpy
    expression evaluates to a new array; the arrays that a later line
    reads through a second name or updates in place are allocated in the
    store, the others are carried as values. *)

Module Store.
Import NumPy.

Definition addr : Type := nat.

Inductive object : Type :=
| DatetimeIndex (instants : list Timestamp)
| LocationObject (location : Location)
| NDArray (elements : list R)          (* an ndarray or a Series *)
| DataFrame (index : list Timestamp) (columns : list (String.string * list R)).

Record store : Type := {
  objects : list object;               (* the objects, by address *)
  log : list (Location * R * R)        (* the records given to pvl_logger *)
}.

(** A statement: it runs in a store and returns a value and the store
    it leaves, raises, or is still running. *)
Definition M (A : Type) : Type := store -> outcome (A * store).

Definition ret {A : Type} (a : A) : M A := fun st => Returned (a, st).

Definition bind {A B : Type} (m : M A) (k : A -> M B) : M B :=
  fun st =>
    match m st with
    | Returned (a, st') => k a st'
    | Raised e => Raised e
    | Running => Running
    end.

Definition lift {A : Type} (o : outcome A) : M A :=
  fun st =>
    match o with
    | Returned a => Returned (a, st)
    | Raised e => Raised e
    | Running => Running
    end.

Notation "x <~ m ;; k" := (bind m (fun x => k))
  (at level 61, m at next level, right associativity).

(** A new object, at the next free address. *)
Definition new (o : object) : M addr :=
  fun st =>
    Returned (length (objects st),
              {| objects := objects st ++ [o]; log := log st |}).

Definition get_index (a : addr) : M (list Timestamp) :=
  fun st =>
    match nth_error (objects st) a with
    | Some (DatetimeIndex l) => Returned (l, st)
    | _ => Raised AttributeError
    end.

Definition get_location (a : addr) : M Location :=
  fun st =>
    match nth_error (objects st) a with
    | Some (LocationObject l) => Returned (l, st)
    | _ => Raised AttributeError
    end.

Definition get_array (a : addr) : M (list R) :=
  fun st =>
    match nth_error (objects st) a with
    | Some (NDArray v) => Returned (v, st)
    | _ => Raised AttributeError
    end.

(** The object at address [n] replaced by its image under [f]. *)
Fixpoint update {A : Type} (n : nat) (f : A -> A) (l : list A) : list A :=
  match l, n with
  | [], _ => []
  | x :: l', O => f x :: l'
  | x :: l', S n' => x :: update n' f l'
  end.

(** An update in place of the array at [a]. *)
Definition modify_array (a : addr) (f : list R -> list R) : M unit :=
  fun st =>
    match nth_error (objects st) a with
    | Some (NDArray v) =>
        Returned (tt, {| objects := update a (fun _ => NDArray (f v)) (objects st);
                         log := log st |})
    | _ => Raised AttributeError
    end.

(** [df[name] = v]: a column added in place to the frame at [df]. *)
Definition setitem (df : addr) (name : String.string) (v : list R) : M unit :=
  fun st =>
    match nth_error (objects st) df with
    | Some (DataFrame index columns) =>
        Returned (tt, {| objects :=
                           update df (fun _ => DataFrame index (columns ++ [(name, v)]))
                                  (objects st);
                         log := log st |})
    | _ => Raised AttributeError
    end.

(** [pvl_logger.debug(...)], lines 265-266. *)
Definition debug (record : Location * R * R) : M unit :=
  fun st =>
    Returned (tt, {| objects := objects st; log := log st ++ [record] |}).

(** [a[mask] = values] on the elements of [a]; the three arrays have
    one shape wherever the body does this. *)
Fixpoint where_ (mask : list bool) (values old : list R) : list R :=
  match mask, values, old with
  | m :: mask', v :: values', o :: old' =>
      (if m then v else o) :: where_ mask' values' old'
  | _, _, _ => []
  end.

(** What a name of the loop is bound to: the scalar of line 322 or an
    array. *)
Inductive value : Type :=
| Scalar (x : R)
| Ref (a : addr).

(** The array a value stands for where it meets an array of the shape of
    [shape] in an elementwise operation. *)
Definition operand (v : value) (shape : list R) : M (list R) :=
  match v with
  | Scalar x => ret (broadcast x shape)
  | Ref a => get_array a
  end.

(** Lines 324-326.  Line 325 binds [E] to the array [EccenAnom] names;
    line 326 binds [EccenAnom] to a new array. *)
Fixpoint loop (fuel : nat) (MeanAnom Eccen : addr) (E : value)
         (EccenAnom : addr) : M addr :=
  ea <~ get_array EccenAnom ;;
  e <~ operand E ea ;;
  r <~ lift (NumPy.max (vabs (vsub ea e))) ;;
  if gt r 0.0001 then
    match fuel with
    | O => fun _ => Running
    | S fuel' =>
        m <~ get_array MeanAnom ;;
        ec <~ get_array Eccen ;;
        EccenAnom' <~ new (NDArray
          (vadd m (vmul (map degrees ec) (map sin (map radians ea))))) ;;
        loop fuel' MeanAnom Eccen (Ref EccenAnom) EccenAnom'
    end
  else ret EccenAnom.

(** The body of [ephemeris] on the store.  [time] is read through its
    UTC calendar fields (line 286). *)
Definition ephemeris (fuel : nat) (time location : addr)
           (pressure temperature : R) : M addr :=
  loc <~ get_location location ;;
  _ <~ debug (loc, temperature, pressure) ;;                  (* 265 *)
  time_utc <~ get_index time ;;                               (* 286 *)
  MeanAnom <~ new (NDArray (map MeanAnom time_utc)) ;;        (* 318 *)
  Eccen <~ new (NDArray (map Eccen time_utc)) ;;              (* 320 *)
  EccenAnom <~ loop fuel MeanAnom Eccen (Scalar 0) MeanAnom ;; (* 321-326 *)
  ea <~ get_array EccenAnom ;;
  SunAz <~ new (NDArray (zipWith (SunAz_343 loc) time_utc ea)) ;;  (* 342 *)
  _ <~ modify_array SunAz (map Line.add_360_where_negative) ;;     (* 344 *)
  SunEl <~ new (NDArray (zipWith (SunEl loc) time_utc ea)) ;;      (* 346 *)
  let SolarTime := zipWith (SolarTime loc) time_utc ea in          (* 350 *)
  let Elevation := SunEl in                                        (* 353 *)
  el <~ get_array Elevation ;;
  Refract <~ new (NDArray (broadcast Refract_355 time_utc)) ;;     (* 355 *)
  _ <~ modify_array Refract                                        (* 357 *)
         (where_ (map (fun e => gt e 5 && le e 85) el)
                 (map (fun e => 58.1 / TanEl e - 0.07 / (TanEl e ^ 3)
                                + 8.6e-05 / (TanEl e ^ 5)) el)) ;;
  _ <~ modify_array Refract                                        (* 360 *)
         (where_ (map (fun e => gt e (-0.575) && le e 5) el)
                 (map (fun e => e * (-518.2 + e * (103.4 + e *
                                  (-12.79 + e * 0.711))) + 1735) el)) ;;
  _ <~ modify_array Refract                                        (* 364 *)
         (where_ (map (fun e => gt e (-1) && le e (-0.575)) el)
                 (map (fun e => -20.774 / TanEl e) el)) ;;
  scale <~ lift (Line.refraction_scale pressure temperature) ;;
  _ <~ modify_array Refract (map (fun r => r * scale)) ;;          (* 366 *)
  sunel <~ get_array SunEl ;;
  refract <~ get_array Refract ;;
  let ApparentSunEl := vadd sunel refract in                       (* 368 *)
  DFOut <~ new (DataFrame time_utc []) ;;                          (* 371 *)
  _ <~ setitem DFOut "elevation"%string sunel ;;
  sunaz <~ get_array SunAz ;;
  _ <~ setitem DFOut "azimuth"%string sunaz ;;
  _ <~ setitem DFOut "zenith"%string (map (fun e => 90 - e) sunel) ;;
  _ <~ setitem DFOut "apparent_elevation"%string ApparentSunEl ;;
  _ <~ setitem DFOut "apparent_zenith"%string
         (map (fun e => 90 - e) ApparentSunEl) ;;
  _ <~ setitem DFOut "solar_time"%string SolarTime ;;
  ret DFOut.                                                       (* 379 *)

(** The table [rows] over the index [index], as a [DataFrame]. *)
Definition frame (index : list Timestamp) (rows : list SolarPosition)
  : object :=
  DataFrame index
    [("elevation"%string, map elevation rows);
     ("azimuth"%string, map azimuth rows);
     ("zenith"%string, map zenith rows);
     ("apparent_elevation"%string, map apparent_elevation rows);
     ("apparent_zenith"%string, map apparent_zenith rows);
     ("solar_time"%string, map solar_time rows)].

(** The store a caller holds [time] and [location] in, at the addresses
    0 and 1. *)
Definition caller (time_utc : list Timestamp) (location : Location) : store :=
  {| objects := [DatetimeIndex time_utc; LocationObject location];
     log := [] |}.

End Store.

(** ** The other calculators and the wrapper (lines 23-209)

    [spa] and [pyephem] call code that is not part of the module: the
    compiled NREL SPA routine [spa_calc] and the [ephem] package.  Both
    are taken as parameters, together with the attributes of the
    arguments that the records above do not carry.  Whether [spa_py]
    imports is a parameter too, since [spa] answers a failed import
    itself (lines 91-95); [ephem] is taken as importable.  A [DataFrame]
    is the value [Store.DataFrame] of its index and its columns. *)

Section Calculators.

(** [location.altitude]. *)
Variable altitude : Location -> R.

(** The calendar month and the day of the month of the day [dayofyear]
    of [year], which [spa] reads as [date.month] and [date.day]. *)
Variable month_of : Z -> Z -> Z.
Variable day_of : Z -> Z -> Z.

(** *** [spa] (lines 60-123) *)

(** The keyword arguments of [spa_calc], in the order of lines 104-113. *)
Record SpaArguments : Type := {
  spa_year : Z;
  spa_month : Z;
  spa_day : Z;
  spa_hour : Z;
  spa_minute : Z;
  spa_second : Z;
  spa_timezone : Z;
  spa_latitude : R;
  spa_longitude : R;
  spa_elevation : R
}.

(** The dictionary [spa_calc] returns, and its entries ['zenith'] and
    ['azimuth']. *)
Variable SpaOutput : Type.
Variable spa_calc : SpaArguments -> SpaOutput.
Variable zenith_entry : SpaOutput -> R.
Variable azimuth_entry : SpaOutput -> R.

(** What the calculators return: the frame of the raw dictionaries of
    [spa_calc], one row for each, or a frame of named columns. *)
Inductive data_frame : Type :=
| RawSpaOutput (index : list Timestamp) (rows : list SpaOutput)
| Columns (frame : Store.object).

(** Lines 101-113: the loop over [time_utc], appending to [spa_out]. *)
Fixpoint spa_loop (location : Location) (time_utc : list Timestamp)
         (spa_out : list SpaOutput) : list SpaOutput :=
  match time_utc with
  | [] => spa_out
  | date :: rest =>
      spa_loop location rest
        (spa_out ++
         [spa_calc {| spa_year := year date;
                      spa_month := month_of (year date) (dayofyear date);
                      spa_day := day_of (year date) (dayofyear date);
                      spa_hour := hour date;
                      spa_minute := minute date;
                      spa_second := second date;
                      spa_timezone := 0;
                      spa_latitude := latitude location;
                      spa_longitude := longitude location;
                      spa_elevation := altitude location |}])
  end.

(** Whether [from pvlib.spa_c_files.spa_py import spa_calc] succeeds
    (lines 91-92). *)
Variable spa_py_importable : bool.

(** The frame of line 115 has the keys of the dictionaries as its
    columns; built from no dictionary it has no column, and line 120,
    which selects ['zenith'] and ['azimuth'], raises [KeyError]. *)
Definition spa (time_utc : list Timestamp) (location : Location)
           (raw_spa_output : bool) : outcome data_frame :=
  if spa_py_importable then
    let spa_out := spa_loop location time_utc [] in
    if raw_spa_output then Returned (RawSpaOutput time_utc spa_out)
    else
      match spa_out with
      | [] => Raised KeyError                                     (* 120 *)
      | _ :: _ =>
          let zenith := map zenith_entry spa_out in
          let azimuth := map azimuth_entry spa_out in
          Returned
            (Columns
               (Store.DataFrame time_utc
                  [("zenith"%string, zenith);
                   ("azimuth"%string, azimuth);
                   ("elevation"%string, map (fun z => 90 - z) zenith)]))
      end
  else Raised ImportError.                                        (* 95 *)

(** *** [_ephem_setup] and [pyephem] (lines 126-209) *)

(** The attributes of an [ephem.Observer] that the module sets.  The
    latitude and the longitude are given to PyEphem as strings, which it
    reads as degrees; [obs_date] is [None] until the first assignment. *)
Record Observer : Type := {
  obs_lat : R;
  obs_lon : R;
  obs_elevation : R;
  obs_pressure : R;
  obs_temp : R;
  obs_date : option Timestamp
}.

(** [sun.compute(obs)]: the attributes [alt] and [az] it leaves on
    [sun], in radians. *)
Variable compute : Observer -> R * R.

Definition _ephem_setup (location : Location) (pressure temperature : R)
  : Observer :=
  {| obs_lat := latitude location;
     obs_lon := longitude location;
     obs_elevation := altitude location;
     obs_pressure := pressure / 100;
     obs_temp := temperature;
     obs_date := None |}.

Definition set_date (obs : Observer) (thetime : Timestamp) : Observer :=
  {| obs_lat := obs_lat obs; obs_lon := obs_lon obs;
     obs_elevation := obs_elevation obs; obs_pressure := obs_pressure obs;
     obs_temp := obs_temp obs; obs_date := Some thetime |}.

Definition set_pressure (obs : Observer) (pressure : R) : Observer :=
  {| obs_lat := obs_lat obs; obs_lon := obs_lon obs;
     obs_elevation := obs_elevation obs; obs_pressure := pressure;
     obs_temp := obs_temp obs; obs_date := obs_date obs |}.

(** Lines 179-183 and 192-196: the loop over the index, which assigns
    [obs.date] and appends to [alts] and [azis]. *)
Fixpoint sun_loop (obs : Observer) (index : list Timestamp)
         (alts azis : list R) : Observer * (list R * list R) :=
  match index with
  | [] => (obs, (alts, azis))
  | thetime :: rest =>
      let obs := set_date obs thetime in
      let sun := compute obs in
      sun_loop obs rest (alts ++ [fst sun]) (azis ++ [snd sun])
  end.

(** [frame[name]]; the names the module asks for are columns of the
    frame. *)
Fixpoint column (name : String.string)
         (columns : list (String.string * list R)) : list R :=
  match columns with
  | [] => []
  | (n, v) :: rest => if String.eqb n name then v else column name rest
  end.

Definition pyephem (time_utc : list Timestamp) (location : Location)
           (pressure temperature : R) : Store.object :=
  let obs := _ephem_setup location pressure temperature in
  let '(obs, (alts, azis)) := sun_loop obs time_utc [] [] in
  let sun_coords := [("apparent_elevation"%string, alts);
                     ("apparent_azimuth"%string, azis)] in
  let obs := set_pressure obs 0 in                              (* 189 *)
  let '(obs, (alts, azis)) := sun_loop obs time_utc [] [] in
  let sun_coords := sun_coords ++ [("elevation"%string, alts);
                                   ("azimuth"%string, azis)] in
  let sun_coords :=                                             (* 202 *)
    map (fun c => (fst c, map NumPy.degrees (snd c))) sun_coords in
  let sun_coords :=
    sun_coords ++
    [("apparent_zenith"%string,
      map (fun e => 90 - e) (column "apparent_elevation"%string sun_coords))] in
  let sun_coords :=
    sun_coords ++
    [("zenith"%string,
      map (fun e => 90 - e) (column "elevation"%string sun_coords))] in
  Store.DataFrame time_utc sun_coords.

(** *** [get_solarposition] (lines 23-57) *)

(** [time] is a [datetime] or a [DatetimeIndex]. *)
Inductive time_argument : Type :=
| A_datetime (t : Timestamp)
| An_index (l : list Timestamp).

(** [str.lower] on the characters of ASCII. *)
Definition lower_char (c : Ascii.ascii) : Ascii.ascii :=
  let n := Ascii.nat_of_ascii c in
  if ((65 <=? n) && (n <=? 90))%nat then Ascii.ascii_of_nat (n + 32) else c.

Fixpoint lower (s : String.string) : String.string :=
  match s with
  | String.EmptyString => String.EmptyString
  | String.String c s' => String.String (lower_char c) (lower s')
  end.

Definition get_solarposition (fuel : nat) (time : time_argument)
           (location : Location) (method : String.string)
           (pressure temperature : R) : outcome data_frame :=
  let method := lower method in
  let time := match time with
              | A_datetime t => [t]                               (* 46 *)
              | An_index l => l
              end in
  if String.eqb method "spa"%string then
    spa time location false
  else if String.eqb method "pyephem"%string then
    Returned (Columns (pyephem time location pressure temperature))
  else if String.eqb method "ephemeris"%string then
    rows <- ephemeris fuel time location pressure temperature ;;
    Returned (Columns (Store.frame time rows))
  else Raised ValueError.

End Calculators.

(** [frame[name]] on the value of a frame. *)
Definition column_of (name : String.string) (frame : Store.object) : list R :=
  match frame with
  | Store.DataFrame _ columns => column name columns
  | _ => []
  end.

(** Stand-ins for the parameters of the calculators, to run them on:
    sea level, the first of January, and a routine and a sun that
    answer 0 to everything. *)
Definition sea_level (_ : Location) : R := 0.
Definition january (_ _ : Z) : Z := 1%Z.
Definition first_day (_ _ : Z) : Z := 1%Z.
Definition null_spa_calc (_ : SpaArguments) : R * R := (0, 0).
Definition null_compute (_ : Observer) : R * R := (0, 0).

(* ================================================================== *)
(** * Part II: properties                                              *)
(* ================================================================== *)

(** ** Facts about the numpy primitives *)

Module NumPyFacts.
Import NumPy.

Lemma gt_true (x y : R) : x > y -> gt x y = true.
Proof. intros H. unfold gt. destruct (Rgt_dec x y); [reflexivity | contradiction]. Qed.

Lemma gt_false (x y : R) : x <= y -> gt x y = false.
Proof. intros H. unfold gt. destruct (Rgt_dec x y); [lra | reflexivity]. Qed.

Lemma lt_true (x y : R) : x < y -> lt x y = true.
Proof. intros H. unfold lt. destruct (Rlt_dec x y); [reflexivity | contradiction]. Qed.

Lemma lt_false (x y : R) : y <= x -> lt x y = false.
Proof. intros H. unfold lt. destruct (Rlt_dec x y); [lra | reflexivity]. Qed.

Lemma le_true (x y : R) : x <= y -> le x y = true.
Proof. intros H. unfold le. destruct (Rle_dec x y); [reflexivity | contradiction]. Qed.

Lemma le_false (x y : R) : y < x -> le x y = false.
Proof. intros H. unfold le. destruct (Rle_dec x y); [lra | reflexivity]. Qed.

Lemma floor_bounds (x : R) : floor x <= x < floor x + 1.
Proof.
  unfold floor. destruct (base_Int_part x) as [H1 H2]. lra.
Qed.

Lemma floor_unique (x : R) (k : Z) : IZR k <= x < IZR k + 1 -> floor x = IZR k.
Proof.
  intros H. unfold floor. f_equal. symmetry. apply Int_part_spec. lra.
Qed.

Lemma mod_range (x y : R) : 0 < y -> 0 <= mod_ x y < y.
Proof.
  intros Hy. unfold mod_.
  destruct (floor_bounds (x / y)) as [H1 H2].
  assert (Hx : x = (x / y) * y) by (field; lra).
  split.
  - assert (floor (x / y) * y <= (x / y) * y) by (apply Rmult_le_compat_r; lra).
    lra.
  - assert ((x / y) * y < (floor (x / y) + 1) * y) by (apply Rmult_lt_compat_r; lra).
    lra.
Qed.

Lemma mod_congruent (x y : R) : exists k : Z, mod_ x y = x - IZR k * y.
Proof. exists (Int_part (x / y)). reflexivity. Qed.

Lemma mod_small (x y : R) : 0 <= x < y -> mod_ x y = x.
Proof.
  intros H. unfold mod_.
  rewrite (floor_unique (x / y) 0).
  - lra.
  - assert (Hy : 0 < y) by lra.
    assert (Hi : 0 < / y) by (apply Rinv_0_lt_compat; exact Hy).
    unfold Rdiv. split.
    + apply Rmult_le_pos; lra.
    + apply (Rmult_lt_reg_r y); [exact Hy |].
      rewrite Rmult_assoc, Rinv_l by lra. lra.
Qed.

Lemma mod_one_turn (x y : R) : 0 < y -> y <= x < 2 * y -> mod_ x y = x - y.
Proof.
  intros Hy H. unfold mod_.
  rewrite (floor_unique (x / y) 1).
  - lra.
  - assert (Hi : 0 < / y) by (apply Rinv_0_lt_compat; exact Hy).
    split.
    + apply (Rmult_le_reg_r y); [exact Hy |].
      unfold Rdiv. rewrite Rmult_assoc, Rinv_l by lra. lra.
    + apply (Rmult_lt_reg_r y); [exact Hy |].
      unfold Rdiv. rewrite Rmult_assoc, Rinv_l by lra. lra.
Qed.

Lemma mod_period (x y : R) : 0 < y -> mod_ (x + y) y = mod_ x y.
Proof.
  intros Hy. unfold mod_.
  assert (E : (x + y) / y = x / y + 1) by (field; lra).
  rewrite E.
  rewrite (floor_unique (x / y + 1) (Int_part (x / y) + 1)).
  - rewrite plus_IZR. unfold floor. ring.
  - rewrite plus_IZR. pose proof (floor_bounds (x / y)) as Hf.
    unfold floor in Hf. lra.
Qed.

Lemma arctan2_range (y x : R) : - PI < arctan2 y x <= PI.
Proof.
  unfold arctan2. pose proof PI_RGT_0 as Hpi.
  pose proof (atan_bound (y / x)) as Hb.
  destruct (Rlt_dec 0 x) as [Hx | Hx]; [lra |].
  destruct (Rlt_dec x 0) as [Hx' | Hx'].
  - assert (Hix : / x < 0) by (apply Rinv_lt_0_compat; exact Hx').
    destruct (Rle_dec 0 y) as [Hy | Hy].
    + assert (y / x <= 0) by (unfold Rdiv; nra).
      assert (atan (y / x) <= 0).
      { destruct (Req_dec (y / x) 0) as [E0 | N0].
        - rewrite E0, atan_0. lra.
        - left. rewrite <- atan_0. apply atan_increasing. lra. }
      lra.
    + assert (0 < y / x) by (unfold Rdiv; nra).
      assert (0 < atan (y / x)) by (rewrite <- atan_0; apply atan_increasing; lra).
      lra.
  - destruct (Rlt_dec 0 y); [lra |]. destruct (Rlt_dec y 0); lra.
Qed.

Lemma degrees_range (x : R) : - PI < x <= PI -> -180 < degrees x <= 180.
Proof.
  intros H. unfold degrees. pose proof PI_RGT_0 as Hpi.
  assert (Hi : 0 < / PI) by (apply Rinv_0_lt_compat; lra).
  assert (E : x * (180 / PI) = 180 * (x * / PI)) by (unfold Rdiv; ring).
  rewrite E.
  assert (-1 < x * / PI <= 1).
  { split.
    - apply (Rmult_lt_reg_r PI); [lra |]. rewrite Rmult_assoc, Rinv_l by lra. lra.
    - apply (Rmult_le_reg_r PI); [lra |]. rewrite Rmult_assoc, Rinv_l by lra. lra. }
  lra.
Qed.


Lemma radians_degrees (x : R) : radians (degrees x) = x.
Proof. unfold radians, degrees. pose proof PI_RGT_0. field. lra. Qed.

(** [np.max] returns an upper bound that is an element. *)
Lemma fold_max_ge (l : list R) (a : R) : a <= fold_left Rmax l a.
Proof.
  revert a. induction l as [| x l IH]; intros a; simpl; [lra |].
  eapply Rle_trans; [apply (Rmax_l a x) | apply IH].
Qed.

Lemma fold_max_upper (l : list R) (a x : R) : In x l -> x <= fold_left Rmax l a.
Proof.
  revert a. induction l as [| y l IH]; intros a Hin; simpl in *; [contradiction |].
  destruct Hin as [-> | Hin].
  - eapply Rle_trans; [apply (Rmax_r a x) | apply fold_max_ge].
  - apply IH. exact Hin.
Qed.

Lemma fold_max_le (l : list R) (a b : R) :
  a <= b -> (forall x, In x l -> x <= b) -> fold_left Rmax l a <= b.
Proof.
  revert a. induction l as [| y l IH]; intros a Ha Hl; simpl; [exact Ha |].
  apply IH.
  - apply Rmax_lub; [exact Ha | apply Hl; left; reflexivity].
  - intros x Hx. apply Hl. right. exact Hx.
Qed.

Lemma max_nonempty (l : list R) : l <> [] -> exists m, max l = Returned m.
Proof. destruct l as [| x l]; [congruence | intros _; eexists; reflexivity]. Qed.

Lemma max_upper (l : list R) (m x : R) : max l = Returned m -> In x l -> x <= m.
Proof.
  destruct l as [| a l]; simpl; [discriminate |].
  intros [= <-] [-> | Hin]; [apply fold_max_ge | apply fold_max_upper; exact Hin].
Qed.

Lemma max_le (l : list R) (m b : R) :
  max l = Returned m -> (forall x, In x l -> x <= b) -> m <= b.
Proof.
  destruct l as [| a l]; simpl; [discriminate |].
  intros [= <-] Hl. apply fold_max_le.
  - apply Hl. left. reflexivity.
  - intros x Hx. apply Hl. right. exact Hx.
Qed.

Lemma zipWith_length {A B C : Type} (f : A -> B -> C) (l1 : list A) (l2 : list B) :
  length l1 = length l2 -> length (zipWith f l1 l2) = length l1.
Proof.
  revert l2. induction l1 as [| a l1 IH]; intros [| b l2]; simpl; try congruence.
  intros [= H]. f_equal. apply IH. exact H.
Qed.

End NumPyFacts.

(** ** The Kepler iteration *)

Module KeplerFacts.
Import NumPy NumPyFacts Kepler.

Lemma Rabs_sin_le (x : R) : Rabs (sin x) <= Rabs x.
Proof.
  destruct (Rtotal_order x 0) as [Hneg | [-> | Hpos]].
  - pose proof (sin_gt_x x Hneg) as H1.
    rewrite (Rabs_left x Hneg).
    apply Rabs_le. split; [lra |].
    destruct (Rle_or_lt x (-1)) as [Hs | Hs].
    + pose proof (SIN_bound x). lra.
    + assert (sin x < 0) by (apply sin_lt_0_var; pose proof PI2_1; lra). lra.
  - rewrite sin_0. lra.
  - pose proof (sin_lt_x x Hpos) as H1.
    rewrite (Rabs_right x) by lra.
    apply Rabs_le. split; [| lra].
    destruct (Rle_or_lt 1 x) as [Hs | Hs].
    + pose proof (SIN_bound x). lra.
    + assert (0 < sin x) by (apply sin_gt_0; pose proof PI2_1; lra). lra.
Qed.

(** The sine is 1-Lipschitz. *)
Lemma sin_lipschitz (a b : R) : Rabs (sin a - sin b) <= Rabs (a - b).
Proof.
  rewrite form4.
  rewrite Rmult_assoc, Rabs_mult, Rabs_mult.
  rewrite (Rabs_right 2) by lra.
  pose proof (Rabs_sin_le ((a - b) / 2)) as Hs.
  assert (Hc : Rabs (cos ((a + b) / 2)) <= 1).
  { apply Rabs_le. pose proof (COS_bound ((a + b) / 2)). lra. }
  assert (Hh : Rabs ((a - b) / 2) = Rabs (a - b) / 2).
  { unfold Rdiv. rewrite Rabs_mult, (Rabs_right (/ 2)) by lra. reflexivity. }
  rewrite Hh in Hs.
  pose proof (Rabs_pos (cos ((a + b) / 2))) as Hc0.
  pose proof (Rabs_pos (sin ((a - b) / 2))) as Hs0.
  nra.
Qed.

Lemma Rabs_degrees (e : R) : Rabs (degrees e) = Rabs e * (180 / PI).
Proof.
  unfold degrees. rewrite Rabs_mult. f_equal.
  apply Rabs_right. pose proof PI_RGT_0.
  apply Rle_ge. apply Rlt_le. apply Rdiv_lt_0_compat; lra.
Qed.

(** One update moves two estimates closer by the factor [|Eccen|]. *)
Lemma kepler_step_contracts (M e a b : R) :
  Rabs (kepler_step M e a - kepler_step M e b) <= Rabs e * Rabs (a - b).
Proof.
  unfold kepler_step.
  replace (M + degrees e * sin (radians a) - (M + degrees e * sin (radians b)))
    with (degrees e * (sin (radians a) - sin (radians b))) by ring.
  rewrite Rabs_mult, Rabs_degrees.
  pose proof (sin_lipschitz (radians a) (radians b)) as Hl.
  assert (Hr : Rabs (radians a - radians b) = Rabs (a - b) * (PI / 180)).
  { unfold radians. rewrite <- Rmult_minus_distr_r, Rabs_mult. f_equal.
    apply Rabs_right. pose proof PI_RGT_0. lra. }
  rewrite Hr in Hl.
  pose proof PI_RGT_0 as Hpi.
  pose proof (Rabs_pos e) as He.
  assert (Hk : 0 < 180 / PI) by (apply Rdiv_lt_0_compat; lra).
  assert (Hm : Rabs e * (180 / PI) * Rabs (sin (radians a) - sin (radians b))
               <= Rabs e * (180 / PI) * (Rabs (a - b) * (PI / 180))).
  { apply Rmult_le_compat_l; [| exact Hl]. apply Rmult_le_pos; lra. }
  replace (Rabs e * (180 / PI) * (Rabs (a - b) * (PI / 180)))
    with (Rabs e * Rabs (a - b)) in Hm by (field; lra).
  exact Hm.
Qed.

(** The first update moves the estimate by at most [degrees |Eccen|]. *)
Lemma kepler_step_first (M e x : R) :
  Rabs e <= 0.02 -> Rabs (kepler_step M e x - M) <= 1.2.
Proof.
  intros He. unfold kepler_step.
  replace (M + degrees e * sin (radians x) - M)
    with (degrees e * sin (radians x)) by ring.
  rewrite Rabs_mult, Rabs_degrees.
  assert (Hs : Rabs (sin (radians x)) <= 1).
  { apply Rabs_le. pose proof (SIN_bound (radians x)). lra. }
  pose proof (Rabs_pos (sin (radians x))) as Hs0.
  pose proof (Rabs_pos e) as He0.
  pose proof PI2_3_2 as Hpi.
  assert (Hk : 0 < 180 / PI < 60).
  { split.
    - apply Rdiv_lt_0_compat; lra.
    - apply (Rmult_lt_reg_r PI); [lra |].
      unfold Rdiv. rewrite Rmult_assoc, Rinv_l by lra. lra. }
  set (d := 180 / PI) in *.
  assert (Hd : Rabs e * d <= 0.02 * 60).
  { apply Rmult_le_compat; lra. }
  replace 1.2 with (0.02 * 60 * 1) by lra.
  apply Rmult_le_compat; try lra.
  apply Rmult_le_pos; lra.
Qed.

(** The array expression of line 326 computes [kepler_step] elementwise. *)
Lemma body_elementwise {P Q : R -> R -> R -> R -> Prop}
      (M e E EA : list R) :
  (forall m ec x y, P m ec x y -> Q m ec y (kepler_step m ec y)) ->
  Forall4 P M e E EA ->
  Forall4 Q M e EA
          (vadd M (vmul (map degrees e) (map sin (map radians EA)))).
Proof.
  intros HPQ H. induction H as [| m ec x y M e E EA Hp _ IH]; simpl.
  - constructor.
  - constructor; [apply (HPQ m ec x y Hp) | exact IH].
Qed.

Lemma residual_elements {P : R -> R -> R -> R -> Prop} (B : R)
      (M e E EA : list R) :
  (forall m ec x y, P m ec x y -> Rabs (y - x) <= B) ->
  Forall4 P M e E EA ->
  forall r, In r (vabs (vsub EA E)) -> r <= B.
Proof.
  intros HP H. induction H as [| m ec x y M e E EA Hp _ IH]; simpl.
  - contradiction.
  - intros r [<- | Hin]; [apply (HP m ec x y Hp) | apply IH; exact Hin].
Qed.

Lemma Forall4_nonempty {P : R -> R -> R -> R -> Prop} (M e E EA : list R) :
  Forall4 P M e E EA -> M <> [] -> vabs (vsub EA E) <> [].
Proof. intros H. destruct H; simpl; congruence. Qed.

(** From a state reached by the body, [k] more executions of the body
    are enough when [B * 0.02^k] is within the tolerance. *)
Lemma loop_converges (k : nat) :
  forall (fuel : nat) (M e : list R) (s : state) (B : R),
    (k <= fuel)%nat ->
    M <> [] ->
    0 <= B ->
    B * 0.02 ^ k <= 0.0001 ->
    Forall4 (fun m ec x y =>
               Rabs ec <= 0.02 /\ y = kepler_step m ec x /\ Rabs (y - x) <= B)
            M e (E s) (EccenAnom s) ->
    exists s' r, loop fuel M e s = Returned s' /\
                 residual s' = Returned r /\ r <= 0.0001.
Proof.
  induction k as [| k IH]; intros fuel M e s B Hfuel Hne HB Hk Hinv.
  - assert (Hres : exists r, residual s = Returned r).
    { apply max_nonempty. apply (Forall4_nonempty _ _ _ _ Hinv Hne). }
    destruct Hres as [r Hr].
    assert (HrB : r <= B).
    { apply (max_le _ _ _ Hr).
      apply (residual_elements B _ _ _ _ (fun m ec x y H => proj2 (proj2 H)) Hinv). }
    exists s, r. simpl in Hk.
    destruct fuel; simpl; rewrite Hr; simpl;
      rewrite gt_false by lra; repeat split; try assumption; lra.
  - assert (Hres : exists r, residual s = Returned r).
    { apply max_nonempty. apply (Forall4_nonempty _ _ _ _ Hinv Hne). }
    destruct Hres as [r Hr].
    assert (HrB : r <= B).
    { apply (max_le _ _ _ Hr).
      apply (residual_elements B _ _ _ _ (fun m ec x y H => proj2 (proj2 H)) Hinv). }
    destruct (Rle_or_lt r 0.0001) as [Hsmall | Hbig].
    + exists s, r.
      destruct fuel; simpl; rewrite Hr; simpl;
        rewrite gt_false by lra; repeat split; assumption.
    + destruct fuel as [| fuel]; [lia |].
      simpl. rewrite Hr. simpl. rewrite gt_true by lra.
      apply (IH fuel M e (body M e s) (0.02 * B)).
      * lia.
      * exact Hne.
      * lra.
      * simpl in Hk. lra.
      * unfold body. simpl.
        refine (body_elementwise M e (E s) (EccenAnom s) _ Hinv).
        intros m ec x y (Hec & Hy & Hd).
        split; [exact Hec |]. split; [reflexivity |].
        rewrite Hy at 2.
        eapply Rle_trans; [apply kepler_step_contracts |].
        pose proof (Rabs_pos ec). pose proof (Rabs_pos (y - x)). nra.
Qed.

Lemma first_body_invariant (M e : list R) :
  Forall2 (fun m ec => Rabs ec <= 0.02) M e ->
  Forall4 (fun m ec x y =>
             Rabs ec <= 0.02 /\ y = kepler_step m ec x /\ Rabs (y - x) <= 1.2)
          M e M (vadd M (vmul (map degrees e) (map sin (map radians M)))).
Proof.
  intros H. induction H as [| m ec M e Hec _ IH]; simpl.
  - constructor.
  - constructor; [| exact IH].
    split; [exact Hec |]. split; [reflexivity |].
    apply kepler_step_first. exact Hec.
Qed.

(** Four executions of the body always suffice when every eccentricity
    is at most 0.02 in absolute value. *)
Lemma solve_converges (fuel : nat) (M e : list R) :
  (4 <= fuel)%nat ->
  M <> [] ->
  Forall2 (fun m ec => Rabs ec <= 0.02) M e ->
  exists s r, solve fuel M e = Returned s /\
              residual s = Returned r /\ r <= 0.0001.
Proof.
  intros Hfuel Hne H.
  assert (Hres : exists r, residual (init M) = Returned r).
  { apply max_nonempty. destruct M; simpl; congruence. }
  destruct Hres as [r Hr].
  destruct (Rle_or_lt r 0.0001) as [Hsmall | Hbig].
  - exists (init M), r. unfold solve.
    destruct fuel; simpl; rewrite Hr; simpl;
      rewrite gt_false by lra; repeat split; assumption.
  - destruct fuel as [| fuel]; [lia |].
    unfold solve. simpl. rewrite Hr. simpl. rewrite gt_true by lra.
    apply (loop_converges 3 fuel M e (body M e (init M)) 1.2).
    + lia.
    + exact Hne.
    + lra.
    + simpl. lra.
    + unfold body, init. simpl. apply first_body_invariant. exact H.
Qed.

Lemma solve_empty (fuel : nat) (e : list R) :
  solve fuel [] e = Raised ValueError.
Proof. destruct fuel; reflexivity. Qed.

(** The loop returns the state it tested last: a returned state is
    within the tolerance. *)
Lemma loop_returns_within_tolerance (fuel : nat) :
  forall (M e : list R) (s s' : state),
    loop fuel M e s = Returned s' ->
    exists r, residual s' = Returned r /\ r <= 0.0001.
Proof.
  induction fuel as [| fuel IH]; intros M e s s'; simpl;
    destruct (residual s) as [r | x |] eqn:Hr; simpl; try discriminate;
    unfold gt; destruct (Rgt_dec r 0.0001) as [Hgt | Hle]; try discriminate.
  - intros [= <-]. exists r. split; [exact Hr | lra].
  - apply IH.
  - intros [= <-]. exists r. split; [exact Hr | lra].
Qed.


Lemma loop_unfold (fuel : nat) (M e : list R) (s : state) :
  loop fuel M e s =
  (r <- residual s ;;
   if gt r 0.0001 then
     match fuel with
     | O => Running
     | S fuel' => loop fuel' M e (body M e s)
     end
   else Returned s).
Proof. destruct fuel; reflexivity. Qed.


End KeplerFacts.

(** C2.  On a batch whose eccentricities lie in [0, 0.02] and whose mean
    anomalies lie in [0, 360) the loop started at [EccenAnom = MeanAnom]
    exits after at most four executions of its body, and the state it
    exits with has a maximum absolute change of at most 1e-4 degrees.
    (On a zero-size batch the loop condition itself raises, in
    [np.max].) *)
Theorem kepler_converges_for_solar_eccentricity
        (fuel : nat) (MeanAnom Eccen : list R) :
  (4 <= fuel)%nat ->
  Forall2 (fun m e => 0 <= m < 360 /\ 0 <= e <= 0.02) MeanAnom Eccen ->
  (MeanAnom <> [] ->
   exists s r, Kepler.solve fuel MeanAnom Eccen = Returned s /\
               Kepler.residual s = Returned r /\ r <= 0.0001) /\
  (MeanAnom = [] -> Kepler.solve fuel MeanAnom Eccen = Raised ValueError).
Proof.
  intros Hfuel H. split.
  - intros Hne. apply KeplerFacts.solve_converges; try assumption.
    eapply Forall2_impl; [| exact H].
    intros m e [_ He]. cbv beta. apply Rabs_le. lra.
  - intros ->. apply KeplerFacts.solve_empty.
Qed.

Lemma kepler_converges_for_solar_eccentricity_witness :
  exists s r, Kepler.solve 4 [90] [0.0167] = Returned s /\
              Kepler.residual s = Returned r /\ r <= 0.0001.
Proof.
  refine (proj1 (kepler_converges_for_solar_eccentricity
                   4 [90] [0.0167] (le_n 4) _) _).
  - constructor; [lra | constructor].
  - discriminate.
Defined.

(** ** Rounding to binary64 *)

Module Binary64Facts.
Import Binary64.






























End Binary64Facts.

(** ** The body on one element *)

Module InstantFacts.
Import NumPy NumPyFacts.

Lemma LocAST_range (location : Location) (t : Timestamp) :
  0 <= LocAST location t < 360.
Proof. unfold LocAST, Line.local_sidereal_time. apply mod_range. lra. Qed.

Lemma RtAscen_range (t : Timestamp) (EccenAnom : R) :
  -180 < RtAscen t EccenAnom <= 180.
Proof. unfold RtAscen. apply degrees_range. apply arctan2_range. Qed.

(** Line 340 on a difference of a local sidereal time and a right
    ascension. *)
Lemma wrap_hour_angle_cases (h : R) :
  -180 <= h ->
  Line.wrap_hour_angle h = if Rlt_dec 180 h then h - 360 else h.
Proof.
  intros Hh. unfold Line.wrap_hour_angle, of_bool.
  destruct (Rlt_dec 180 h) as [Hbig | Hsmall].
  - rewrite gt_true; [lra |]. rewrite Rabs_right; lra.
  - rewrite gt_false; [lra |]. apply Rabs_le. lra.
Qed.

Lemma HrAngle_338_range (location : Location) (t : Timestamp) (EccenAnom : R) :
  -180 <= HrAngle_338 location t EccenAnom < 540.
Proof.
  unfold HrAngle_338.
  pose proof (LocAST_range location t).
  pose proof (RtAscen_range t EccenAnom). lra.
Qed.

Lemma HrAngle_range (location : Location) (t : Timestamp) (EccenAnom : R) :
  -180 <= HrAngle location t EccenAnom <= 180.
Proof.
  unfold HrAngle.
  pose proof (HrAngle_338_range location t EccenAnom) as H.
  rewrite wrap_hour_angle_cases by lra.
  destruct (Rlt_dec 180 _); lra.
Qed.

Lemma SolarTime_range (location : Location) (t : Timestamp) (EccenAnom : R) :
  0 <= SolarTime location t EccenAnom <= 24.
Proof.
  unfold SolarTime. pose proof (HrAngle_range location t EccenAnom). lra.
Qed.







(** The arguments of the two [np.arcsin] calls stay in [-1, 1]. *)
Lemma DecR_arg_in_domain (t : Timestamp) (EccenAnom : R) :
  -1 <= sin (ObliquityR t) * sin (EcLonR t EccenAnom) <= 1.
Proof.
  pose proof (SIN_bound (ObliquityR t)).
  pose proof (SIN_bound (EcLonR t EccenAnom)). nra.
Qed.

Lemma SunEl_arg_in_domain (location : Location) (t : Timestamp) (EccenAnom : R) :
  -1 <= SunEl_arg location t EccenAnom <= 1.
Proof.
  unfold SunEl_arg.
  set (a := cos (LatR location)). set (b := sin (LatR location)).
  set (c := cos (DecR t EccenAnom)). set (d := sin (DecR t EccenAnom)).
  set (k := cos (HrAngleR location t EccenAnom)).
  assert (Hab : b * b + a * a = 1).
  { pose proof (sin2_cos2 (LatR location)) as H. unfold Rsqr in H. exact H. }
  assert (Hcd : d * d + c * c = 1).
  { pose proof (sin2_cos2 (DecR t EccenAnom)) as H. unfold Rsqr in H. exact H. }
  assert (Hk : -1 <= k <= 1) by apply COS_bound.
  assert (Hsq : (a * c * k + b * d) * (a * c * k + b * d) <= 1).
  { assert (Hcs : (a * c * k + b * d) * (a * c * k + b * d)
                  <= (a * a * (k * k) + b * b) * (c * c + d * d)).
    { assert (0 <= (a * k * d - b * c) * (a * k * d - b * c)) by apply Rle_0_sqr.
      nra. }
    assert (Hk2 : k * k <= 1) by nra.
    assert (Ha : 0 <= a * a) by apply Rle_0_sqr.
    assert (Hak : a * a * (k * k) <= a * a * 1)
      by (apply Rmult_le_compat_l; assumption).
    replace (c * c + d * d) with 1 in Hcs by lra.
    lra. }
  set (u := a * c * k + b * d) in *.
  split; nra.
Qed.

End InstantFacts.

(** ** Refraction *)

Module RefractionFacts.
Import NumPy NumPyFacts.

(** The three masked assignments of lines 357-364 select the branch of
    the table that contains the elevation. *)
Lemma Refract_364_is_table (Elevation : R) :
  Refract_364 Elevation = refraction_table Elevation.
Proof.
  unfold Refract_364, Refract_362, Refract_358, Refract_355,
    refraction_table, TanEl, gt, le.
  destruct (Rlt_dec 5 Elevation) as [H5 | H5];
    destruct (Rle_dec Elevation 85) as [H85 | H85];
    destruct (Rlt_dec (-0.575) Elevation) as [Hm | Hm];
    destruct (Rlt_dec (-1) Elevation) as [H1 | H1];
    destruct (Rgt_dec Elevation 5);
    destruct (Rgt_dec Elevation (-0.575));
    destruct (Rgt_dec Elevation (-1));
    destruct (Rle_dec Elevation 5);
    destruct (Rle_dec Elevation (-0.575));
    simpl; try reflexivity; try lra.
Qed.

Lemma refraction_scale_returns (pressure temperature scale : R) :
  Line.refraction_scale pressure temperature = Returned scale ->
  273 + temperature <> 0 /\ scale = scale_factor temperature pressure.
Proof.
  unfold Line.refraction_scale, scale_factor.
  destruct (Req_dec_T (273 + temperature) 0) as [Hz | Hnz]; [discriminate |].
  intros [= <-]. split; [exact Hnz | reflexivity].
Qed.

Lemma refraction_scale_total (pressure temperature : R) :
  273 + temperature <> 0 ->
  Line.refraction_scale pressure temperature
  = Returned (scale_factor temperature pressure).
Proof.
  intros Hnz. unfold Line.refraction_scale, scale_factor.
  destruct (Req_dec_T (273 + temperature) 0); [contradiction | reflexivity].
Qed.

Lemma scale_factor_zero_pressure (temperature : R) :
  scale_factor temperature 0 = 0.
Proof. unfold scale_factor, Rdiv. ring. Qed.

(** In the first and the third branch the tangent the code divides by is
    not zero. *)
Lemma TanEl_positive (Elevation : R) :
  5 < Elevation <= 85 -> 0 < TanEl Elevation.
Proof.
  intros H. unfold TanEl, radians. pose proof PI_RGT_0 as Hpi.
  apply tan_gt_0; nra.
Qed.

Lemma TanEl_negative (Elevation : R) :
  -1 < Elevation <= -0.575 -> TanEl Elevation < 0.
Proof.
  intros H. unfold TanEl, radians. pose proof PI_RGT_0 as Hpi.
  apply tan_lt_0; nra.
Qed.

End RefractionFacts.

(** ** The calendar arithmetic and the table [ephemeris] returns *)

Module EphemerisFacts.
Import NumPy NumPyFacts.

Lemma valid_timestamp_bounds (t : Timestamp) :
  valid_timestamp t = true ->
  1677 <= IZR (year t) <= 2262 /\
  1 <= IZR (dayofyear t) <= 366 /\
  0 <= IZR (hour t) <= 23 /\
  0 <= IZR (minute t) <= 59 /\
  0 <= IZR (second t) <= 59 /\
  0 <= IZR (microsecond t) <= 999999.
Proof.
  unfold valid_timestamp. intros H.
  repeat (apply andb_prop in H; destruct H as [H ?]).
  repeat match goal with
         | Hb : (_ <=? _)%Z = true |- _ => apply Z.leb_le, IZR_le in Hb
         end.
  repeat split; assumption.
Qed.

Lemma DecHours_range (t : Timestamp) :
  valid_timestamp t = true -> 0 <= DecHours t < 24.
Proof.
  intros H. apply valid_timestamp_bounds in H. unfold DecHours. lra.
Qed.

(** For the instants pandas represents, [T1] stays between -3 and 4
    Julian centuries from 1900. *)
Lemma T1_range (t : Timestamp) :
  valid_timestamp t = true -> -3 <= T1 t <= 4.
Proof.
  intros H. pose proof (DecHours_range t H) as Hh.
  apply valid_timestamp_bounds in H.
  unfold T1, EpochDate, Ezero, YrBegin, UnivDate, UnivHr, DayOfYear, Yr.
  pose proof (floor_bounds ((IZR (year t) - 1900 - 1) / 4)) as Hf.
  lra.
Qed.

(** The eccentricity of line 320 for these instants. *)
Lemma Eccen_range (t : Timestamp) :
  valid_timestamp t = true -> 0.0165 <= Eccen t <= 0.0169.
Proof.
  intros H. pose proof (T1_range t H) as HT. unfold Eccen.
  set (x := T1 t) in *.
  assert (0 <= x ^ 2 <= 16) by nra.
  lra.
Qed.

Lemma MeanAnom_range (t : Timestamp) : 0 <= MeanAnom t < 360.
Proof. unfold MeanAnom. apply mod_range. lra. Qed.

Lemma zipWith_Forall {A B C : Type} (f : A -> B -> C) (P : C -> Prop)
      (l1 : list A) (l2 : list B) :
  (forall a b, In a l1 -> In b l2 -> P (f a b)) -> Forall P (zipWith f l1 l2).
Proof.
  revert l2. induction l1 as [| a l1 IH]; intros [| b l2] H; simpl;
    try constructor.
  - apply H; left; reflexivity.
  - apply IH. intros a' b' Ha Hb. apply H; right; assumption.
Qed.

(** What a returned table is made of. *)
Lemma ephemeris_returned (fuel : nat) (time_utc : list Timestamp)
      (location : Location) (pressure temperature : R)
      (rows : list SolarPosition) :
  ephemeris fuel time_utc location pressure temperature = Returned rows ->
  exists s,
    Kepler.solve fuel (map MeanAnom time_utc) (map Eccen time_utc) = Returned s /\
    273 + temperature <> 0 /\
    rows = zipWith (fun t EccenAnom =>
                      row location t EccenAnom (scale_factor temperature pressure))
                   time_utc (Kepler.EccenAnom s).
Proof.
  unfold ephemeris.
  destruct (Kepler.solve fuel (map MeanAnom time_utc) (map Eccen time_utc))
    as [s | x |]; simpl; try discriminate.
  destruct (Line.refraction_scale pressure temperature) as [scale | x |] eqn:Hs;
    simpl; try discriminate.
  intros [= <-]. exists s.
  apply RefractionFacts.refraction_scale_returns in Hs. destruct Hs as [Hnz ->].
  repeat split. exact Hnz.
Qed.

(** Every row of a returned table is the row of one instant of the
    batch. *)
Lemma ephemeris_rows (P : SolarPosition -> Prop)
      (fuel : nat) (time_utc : list Timestamp)
      (location : Location) (pressure temperature : R)
      (rows : list SolarPosition) :
  ephemeris fuel time_utc location pressure temperature = Returned rows ->
  (forall t EccenAnom,
      273 + temperature <> 0 ->
      In t time_utc ->
      P (row location t EccenAnom (scale_factor temperature pressure))) ->
  Forall P rows.
Proof.
  intros H HP. apply ephemeris_returned in H. destruct H as (s & _ & Hnz & ->).
  apply zipWith_Forall. intros t EA Ht _. apply HP; assumption.
Qed.

(** [ephemeris] returns its rows on every batch of instants pandas
    represents that is not empty, unless [temperature] is -273. *)
Lemma ephemeris_returns (fuel : nat) (time_utc : list Timestamp)
      (location : Location) (pressure temperature : R) :
  (4 <= fuel)%nat ->
  time_utc <> [] ->
  Forall (fun t => valid_timestamp t = true) time_utc ->
  273 + temperature <> 0 ->
  exists rows,
    ephemeris fuel time_utc location pressure temperature = Returned rows.
Proof.
  intros Hfuel Hne Hvalid Hnz.
  destruct (KeplerFacts.solve_converges fuel (map MeanAnom time_utc)
                                        (map Eccen time_utc))
    as (s & r & Hs & _).
  - exact Hfuel.
  - destruct time_utc; [congruence | discriminate].
  - clear Hne. induction Hvalid as [| t l Ht _ IH]; simpl; constructor.
    + pose proof (Eccen_range t Ht). apply Rabs_le. lra.
    + exact IH.
  - unfold ephemeris. rewrite Hs. simpl.
    rewrite (RefractionFacts.refraction_scale_total _ _ Hnz). simpl.
    eexists. reflexivity.
Qed.

End EphemerisFacts.



(** ** The sample call *)

Module SampleFacts.

Lemma tus_returns :
  exists rows, ephemeris 4 [tus_time] tus 101325 12 = Returned rows.
Proof.
  apply EphemerisFacts.ephemeris_returns.
  - apply le_n.
  - discriminate.
  - constructor; [reflexivity | constructor].
  - lra.
Qed.

Lemma tus_returns_at_zero_pressure :
  exists rows, ephemeris 4 [tus_time] tus 0 12 = Returned rows.
Proof.
  apply EphemerisFacts.ephemeris_returns.
  - apply le_n.
  - discriminate.
  - constructor; [reflexivity | constructor].
  - lra.
Qed.

(** On the meridian the hour angle is zero. *)
Lemma on_meridian_HrAngle (EccenAnom : R) :
  HrAngle (on_meridian EccenAnom) tus_time EccenAnom = 0.
Proof.
  pose proof (InstantFacts.RtAscen_range tus_time EccenAnom) as Hr.
  pose proof (InstantFacts.HrAngle_338_range (on_meridian EccenAnom)
                tus_time EccenAnom) as Hh.
  unfold HrAngle. rewrite InstantFacts.wrap_hour_angle_cases by lra.
  clear Hh. unfold HrAngle_338, LocAST, Line.local_sidereal_time, Longitude.
  unfold on_meridian. cbn [longitude].
  replace (360 + GMSTi tus_time
           - -1 * (RtAscen tus_time EccenAnom - GMSTi tus_time))
    with (RtAscen tus_time EccenAnom + 360) by ring.
  destruct (Rle_dec 0 (RtAscen tus_time EccenAnom)) as [Hpos | Hneg].
  - rewrite NumPyFacts.mod_period by lra.
    rewrite NumPyFacts.mod_small by lra.
    destruct (Rlt_dec 180 _); lra.
  - rewrite NumPyFacts.mod_small by lra.
    destruct (Rlt_dec 180 _); lra.
Qed.

End SampleFacts.

(** ** Refraction (C3) *)

(** C3.  The correction of lines 353-366 is the raw value of the branch
    of the table that contains the true elevation, times the scale factor
    [(283/(273+temperature)) * (pressure/101325) / 3600]: line by line for
    every elevation, and in every row of a returned table, where
    [apparent_elevation] is [elevation] plus that correction.  At a
    pressure of zero the correction is zero for every elevation, and
    [apparent_elevation] equals [elevation] in every row. *)
Theorem refraction_is_table_times_scale :
  (forall Elevation pressure temperature scale : R,
      Line.refraction_scale pressure temperature = Returned scale ->
      Refract Elevation scale
      = refraction_table Elevation * scale_factor temperature pressure) /\
  (forall Elevation temperature scale : R,
      Line.refraction_scale 0 temperature = Returned scale ->
      Refract Elevation scale = 0) /\
  (forall (fuel : nat) (time_utc : list Timestamp) (location : Location)
          (pressure temperature : R) (rows : list SolarPosition),
      ephemeris fuel time_utc location pressure temperature = Returned rows ->
      Forall (fun r =>
                apparent_elevation r
                = elevation r + refraction_table (elevation r)
                                * scale_factor temperature pressure) rows /\
      (pressure = 0 ->
       Forall (fun r => apparent_elevation r = elevation r) rows)).
Proof.
  split; [| split].
  - intros e p T scale Hs.
    apply RefractionFacts.refraction_scale_returns in Hs. destruct Hs as [_ ->].
    unfold Refract. rewrite RefractionFacts.Refract_364_is_table. reflexivity.
  - intros e T scale Hs.
    apply RefractionFacts.refraction_scale_returns in Hs. destruct Hs as [_ ->].
    unfold Refract. rewrite RefractionFacts.scale_factor_zero_pressure. ring.
  - intros fuel time_utc location p T rows H. split.
    + apply (EphemerisFacts.ephemeris_rows _ _ _ _ _ _ _ H).
      intros t EA _ _. cbn [apparent_elevation elevation row].
      unfold ApparentSunEl, Refract.
      rewrite RefractionFacts.Refract_364_is_table. reflexivity.
    + intros ->. apply (EphemerisFacts.ephemeris_rows _ _ _ _ _ _ _ H).
      intros t EA _ _. cbn [apparent_elevation elevation row].
      unfold ApparentSunEl, Refract.
      rewrite RefractionFacts.scale_factor_zero_pressure. ring.
Qed.

Lemma refraction_is_table_times_scale_witness :
  Refract 10 (scale_factor 12 101325)
  = refraction_table 10 * scale_factor 12 101325 /\
  Refract 10 (scale_factor 12 0) = 0 /\
  exists rows,
    ephemeris 4 [tus_time] tus 0 12 = Returned rows /\
    Forall (fun r => apparent_elevation r = elevation r) rows.
Proof.
  destruct refraction_is_table_times_scale as (Hline & Hzero & Hrows).
  split; [| split].
  - apply (Hline 10 101325 12). apply RefractionFacts.refraction_scale_total. lra.
  - apply (Hzero 10 12). apply RefractionFacts.refraction_scale_total. lra.
  - destruct SampleFacts.tus_returns_at_zero_pressure as [rows H].
    exists rows. split; [exact H |].
    exact (proj2 (Hrows _ _ _ _ _ _ H) eq_refl).
Defined.

(** ** Sidereal time and hour angle (C4) *)

(** C4.  Line 277 negates the caller's east-positive longitude, and line
    309 computes the local apparent sidereal time from the negated value,
    so that [LocAST = (360 + GMST + longitude) mod 360].  Line 309 is the
    only use: two sites of one latitude with the same local sidereal time
    get the same row. *)
Theorem longitude_negated_once (location : Location) (t : Timestamp) :
  Longitude location = - longitude location /\
  LocAST location t = NumPy.mod_ (360 + GMSTi t - Longitude location) 360 /\
  LocAST location t = NumPy.mod_ (360 + GMSTi t + longitude location) 360 /\
  (forall (location' : Location) (EccenAnom scale : R),
      latitude location' = latitude location ->
      LocAST location' t = LocAST location t ->
      row location' t EccenAnom scale = row location t EccenAnom scale).
Proof.
  split; [| split; [| split]].
  - unfold Longitude. ring.
  - reflexivity.
  - unfold LocAST, Line.local_sidereal_time, Longitude. f_equal. ring.
  - intros location' EA scale Hlat Hast.
    unfold row, ApparentSunEl, SolarTime, SunEl, SunEl_arg, SunAz, SunAz_343,
      HrAngle, HrAngleR, HrAngle_338, LatR, Latitude.
    rewrite Hlat, Hast. reflexivity.
Qed.

Lemma longitude_negated_once_witness :
  Longitude tus = - -111 /\
  LocAST tus tus_time = NumPy.mod_ (360 + GMSTi tus_time + -111) 360 /\
  row {| latitude := 32.2; longitude := 249 |} tus_time 0 0
  = row tus tus_time 0 0.
Proof.
  destruct (longitude_negated_once tus tus_time) as (Hneg & _ & Hast & Hrow).
  split; [exact Hneg | split; [exact Hast |]].
  apply Hrow.
  - reflexivity.
  - unfold LocAST, Line.local_sidereal_time, Longitude, tus. cbn [longitude].
    replace (360 + GMSTi tus_time - -1 * 249)
      with (360 + GMSTi tus_time - -1 * -111 + 360) by ring.
    apply NumPyFacts.mod_period. lra.
Defined.

(** X21.  The hour angle of lines 338-340 is the local apparent sidereal
    time minus the right ascension, less 360 where that difference
    exceeds 180.  It lies in the closed interval [-180, 180], and it is
    -180 exactly where the local sidereal time is 0 and the right
    ascension is 180. *)
Theorem hour_angle_wrapped_into_closed_interval
        (location : Location) (t : Timestamp) (EccenAnom : R) :
  HrAngle location t EccenAnom
  = (if Rlt_dec 180 (LocAST location t - RtAscen t EccenAnom)
     then LocAST location t - RtAscen t EccenAnom - 360
     else LocAST location t - RtAscen t EccenAnom) /\
  -180 <= HrAngle location t EccenAnom <= 180 /\
  (HrAngle location t EccenAnom = -180 <->
   LocAST location t = 0 /\ RtAscen t EccenAnom = 180).
Proof.
  pose proof (InstantFacts.HrAngle_338_range location t EccenAnom) as H.
  pose proof (InstantFacts.LocAST_range location t) as HL.
  pose proof (InstantFacts.RtAscen_range t EccenAnom) as HR.
  assert (E : HrAngle location t EccenAnom
              = (if Rlt_dec 180 (LocAST location t - RtAscen t EccenAnom)
                 then LocAST location t - RtAscen t EccenAnom - 360
                 else LocAST location t - RtAscen t EccenAnom)).
  { unfold HrAngle. rewrite InstantFacts.wrap_hour_angle_cases by lra.
    reflexivity. }
  split; [exact E |]. split; [apply InstantFacts.HrAngle_range |].
  rewrite E.
  destruct (Rlt_dec 180 (LocAST location t - RtAscen t EccenAnom));
    split; intros; lra.
Qed.

(** ** Ecliptic longitude (C6) *)

(** C6 (as stated, refuted).  Line 331 reduces the sum of the mean
    longitude of perigee and the true anomaly mod 360 first, and subtracts
    the 20 arcseconds of aberration after.  Where the sum is a whole
    number of turns (here 283 + 77) the result is -20/3600, which is
    neither below 360 and non-negative nor the value of
    [(MlPerigee + TrueAnom - Abber) mod 360], which is 360 - 20/3600. *)
Lemma ecliptic_longitude_reduction_refuted :
  Line.ecliptic_longitude 283 77 Abber = - (20 / 3600) /\
  NumPy.mod_ (283 + 77 - Abber) 360 = 360 - 20 / 3600 /\
  ~ (0 <= Line.ecliptic_longitude 283 77 Abber < 360).
Proof.
  assert (E : Line.ecliptic_longitude 283 77 Abber = - (20 / 3600)).
  { unfold Line.ecliptic_longitude, Abber.
    rewrite NumPyFacts.mod_one_turn by lra. lra. }
  split; [exact E |]. split.
  - unfold Abber. rewrite NumPyFacts.mod_small by lra. lra.
  - rewrite E. lra.
Qed.

(** C6 (amended).  The ecliptic longitude is the sum of the mean
    longitude of perigee and the true anomaly reduced mod 360, less 20
    arcseconds of aberration.  It lies in [-20/3600, 360 - 20/3600), and
    differs from the unreduced [MlPerigee + TrueAnom - 20/3600] by a whole
    number of turns. *)
Theorem ecliptic_longitude_reduced_before_aberration
        (t : Timestamp) (EccenAnom : R) :
  EcLon t EccenAnom
  = NumPy.mod_ (MlPerigee t + TrueAnom t EccenAnom) 360 - 20 / 3600 /\
  - (20 / 3600) <= EcLon t EccenAnom < 360 - 20 / 3600 /\
  exists k : Z,
    EcLon t EccenAnom
    = MlPerigee t + TrueAnom t EccenAnom - 20 / 3600 - IZR k * 360.
Proof.
  unfold EcLon, Line.ecliptic_longitude, Abber.
  split; [reflexivity |]. split.
  - pose proof (NumPyFacts.mod_range (MlPerigee t + TrueAnom t EccenAnom) 360)
      as H.
    lra.
  - destruct (NumPyFacts.mod_congruent (MlPerigee t + TrueAnom t EccenAnom) 360)
      as [k Hk].
    exists k. rewrite Hk. ring.
Qed.

(** ** The returned table (C7, C8, C10) *)




(** C8.  In every row of a returned table [zenith] is 90 minus
    [elevation] and [apparent_zenith] is 90 minus [apparent_elevation],
    so each pair adds up to 90. *)
Theorem zenith_is_complement_of_elevation
        (fuel : nat) (time_utc : list Timestamp) (location : Location)
        (pressure temperature : R) (rows : list SolarPosition) :
  ephemeris fuel time_utc location pressure temperature = Returned rows ->
  Forall (fun r =>
            zenith r = 90 - elevation r /\
            apparent_zenith r = 90 - apparent_elevation r /\
            zenith r + elevation r = 90 /\
            apparent_zenith r + apparent_elevation r = 90) rows.
Proof.
  intros H. apply (EphemerisFacts.ephemeris_rows _ _ _ _ _ _ _ H).
  intros t EA _ _.
  cbn [zenith elevation apparent_zenith apparent_elevation row].
  repeat split; ring.
Qed.

Lemma zenith_is_complement_of_elevation_witness :
  exists rows,
    ephemeris 4 [tus_time] tus 101325 12 = Returned rows /\
    Forall (fun r =>
              zenith r = 90 - elevation r /\
              apparent_zenith r = 90 - apparent_elevation r /\
              zenith r + elevation r = 90 /\
              apparent_zenith r + apparent_elevation r = 90) rows.
Proof.
  destruct SampleFacts.tus_returns as [rows H].
  exists rows. split; [exact H |].
  exact (zenith_is_complement_of_elevation _ _ _ _ _ _ H).
Defined.

(** C10.  In every row of a returned table [solar_time] lies in
    [0, 24].  In the row of an instant it is [(180 + HrAngle) / 15] for
    the wrapped hour angle of line 340, which lies in [-180, 180]; where
    that hour angle is 0 it is 12. *)
Theorem solar_time_within_day :
  (forall (fuel : nat) (time_utc : list Timestamp) (location : Location)
          (pressure temperature : R) (rows : list SolarPosition),
      ephemeris fuel time_utc location pressure temperature = Returned rows ->
      Forall (fun r => 0 <= solar_time r <= 24) rows) /\
  (forall (location : Location) (t : Timestamp) (EccenAnom scale : R),
      solar_time (row location t EccenAnom scale)
      = (180 + HrAngle location t EccenAnom) / 15 /\
      -180 <= HrAngle location t EccenAnom <= 180 /\
      (HrAngle location t EccenAnom = 0 ->
       solar_time (row location t EccenAnom scale) = 12)).
Proof.
  split.
  - intros fuel time_utc location p T rows H.
    apply (EphemerisFacts.ephemeris_rows _ _ _ _ _ _ _ H).
    intros t EA _ _. cbn [solar_time row]. apply InstantFacts.SolarTime_range.
  - intros location t EA scale. cbn [solar_time row]. unfold SolarTime.
    split; [reflexivity |]. split; [apply InstantFacts.HrAngle_range |].
    intros ->. lra.
Qed.

Lemma solar_time_within_day_witness :
  (exists rows,
      ephemeris 4 [tus_time] tus 101325 12 = Returned rows /\
      Forall (fun r => 0 <= solar_time r <= 24) rows) /\
  solar_time (row (on_meridian 0) tus_time 0 0) = 12.
Proof.
  destruct solar_time_within_day as [Hrows Hrow]. split.
  - destruct SampleFacts.tus_returns as [rows H].
    exists rows. split; [exact H | exact (Hrows _ _ _ _ _ _ H)].
  - apply (Hrow (on_meridian 0) tus_time 0 0).
    apply SampleFacts.on_meridian_HrAngle.
Defined.

(** ** The body on the store *)

Module StoreFacts.
Local Abbreviation outcome_bind := bind.
Local Abbreviation ephemeris_of_values := ephemeris.
Import NumPy Store.

Lemma nth_error_app_old {A : Type} (l news : list A) (a : nat) (o : A) :
  nth_error l a = Some o -> nth_error (l ++ news) a = Some o.
Proof.
  intros H. rewrite nth_error_app1; [exact H |].
  apply nth_error_Some. congruence.
Qed.

Lemma nth_error_app_new {A : Type} (l news : list A) (a i : nat) :
  a = (length l + i)%nat -> nth_error (l ++ news) a = nth_error news i.
Proof.
  intros ->. rewrite nth_error_app2 by lia. f_equal. lia.
Qed.

Lemma update_app_new {A : Type} (f : A -> A) (l news : list A) (a i : nat) :
  a = (length l + i)%nat -> update a f (l ++ news) = l ++ update i f news.
Proof.
  intros ->. induction l as [| x l IH]; simpl; [reflexivity |].
  rewrite IH. reflexivity.
Qed.

Lemma map_zipWith {A B C D : Type} (f : C -> D) (g : A -> B -> C)
      (l1 : list A) (l2 : list B) :
  map f (zipWith g l1 l2) = zipWith (fun a b => f (g a b)) l1 l2.
Proof.
  revert l2. induction l1 as [| a l1 IH]; intros [| b l2]; simpl;
    try reflexivity.
  rewrite IH. reflexivity.
Qed.

Lemma zipWith_map_r {A B C : Type} (f : A -> B -> C) (h : A -> B)
      (l : list A) :
  zipWith f l (map h l) = map (fun x => f x (h x)) l.
Proof.
  induction l as [| x l IH]; simpl; [reflexivity |]. rewrite IH. reflexivity.
Qed.

Lemma zipWith_length_le {A B C : Type} (f : A -> B -> C)
      (l1 : list A) (l2 : list B) :
  (length (zipWith f l1 l2) <= length l1)%nat.
Proof.
  revert l2. induction l1 as [| a l1 IH]; intros [| b l2]; simpl; try lia.
  specialize (IH l2). lia.
Qed.

Lemma where_broadcast {A B : Type} (m : A -> bool) (v : A -> R) (c : R)
      (l : list A) (l' : list B) :
  (length l <= length l')%nat ->
  where_ (map m l) (map v l) (broadcast c l')
  = map (fun e => if m e then v e else c) l.
Proof.
  unfold broadcast. revert l'.
  induction l as [| x l IH]; intros [| y l'] H; simpl in *;
    try reflexivity; try lia.
  rewrite IH by lia. reflexivity.
Qed.

Lemma where_map {A : Type} (m : A -> bool) (v o : A -> R) (l : list A) :
  where_ (map m l) (map v l) (map o l)
  = map (fun e => if m e then v e else o e) l.
Proof. induction l as [| x l IH]; simpl; [reflexivity |]. rewrite IH. reflexivity. Qed.

(** Statements, one at a time. *)

Lemma bind_ret {A B : Type} (a : A) (k : A -> M B) (st : store) :
  bind (ret a) k st = k a st.
Proof. reflexivity. Qed.

Lemma bind_new {B : Type} (o : object) (k : addr -> M B) (st : store) :
  bind (new o) k st
  = k (length (objects st)) {| objects := objects st ++ [o]; log := log st |}.
Proof. reflexivity. Qed.

Lemma bind_debug {B : Type} (r : Location * R * R) (k : unit -> M B)
      (st : store) :
  bind (debug r) k st
  = k tt {| objects := objects st; log := log st ++ [r] |}.
Proof. reflexivity. Qed.

Lemma bind_get_location {B : Type} (a : addr) (l : Location)
      (k : Location -> M B) (st : store) :
  nth_error (objects st) a = Some (LocationObject l) ->
  bind (get_location a) k st = k l st.
Proof. intros H. unfold bind, get_location. rewrite H. reflexivity. Qed.

Lemma bind_get_index {B : Type} (a : addr) (l : list Timestamp)
      (k : list Timestamp -> M B) (st : store) :
  nth_error (objects st) a = Some (DatetimeIndex l) ->
  bind (get_index a) k st = k l st.
Proof. intros H. unfold bind, get_index. rewrite H. reflexivity. Qed.

Lemma bind_get_array {B : Type} (a : addr) (v : list R)
      (k : list R -> M B) (st : store) :
  nth_error (objects st) a = Some (NDArray v) ->
  bind (get_array a) k st = k v st.
Proof. intros H. unfold bind, get_array. rewrite H. reflexivity. Qed.

Lemma bind_modify_array {B : Type} (a : addr) (v : list R)
      (f : list R -> list R) (k : unit -> M B) (st : store) :
  nth_error (objects st) a = Some (NDArray v) ->
  bind (modify_array a f) k st
  = k tt {| objects := update a (fun _ => NDArray (f v)) (objects st);
            log := log st |}.
Proof. intros H. unfold bind, modify_array. rewrite H. reflexivity. Qed.

Lemma bind_setitem {B : Type} (df : addr) (index : list Timestamp)
      (columns : list (String.string * list R)) (name : String.string)
      (v : list R) (k : unit -> M B) (st : store) :
  nth_error (objects st) df = Some (DataFrame index columns) ->
  bind (setitem df name v) k st
  = k tt {| objects :=
              update df (fun _ => DataFrame index (columns ++ [(name, v)]))
                     (objects st);
            log := log st |}.
Proof. intros H. unfold bind, setitem. rewrite H. reflexivity. Qed.

Lemma bind_lift {A B : Type} (o : outcome A) (k : A -> M B) (st : store) :
  bind (lift o) k st
  = match o with
    | Returned a => k a st
    | Raised e => Raised e
    | Running => Running
    end.
Proof. destruct o; reflexivity. Qed.

Lemma store_loop_unfold (fuel : nat) (MeanAnom Eccen : addr) (E : value)
      (EccenAnom : addr) :
  loop fuel MeanAnom Eccen E EccenAnom
  = (ea <~ get_array EccenAnom ;;
     e <~ operand E ea ;;
     r <~ lift (NumPy.max (vabs (vsub ea e))) ;;
     if gt r 0.0001 then
       match fuel with
       | O => fun _ => Running
       | S fuel' =>
           m <~ get_array MeanAnom ;;
           ec <~ get_array Eccen ;;
           EccenAnom' <~ new (NDArray
             (vadd m (vmul (map degrees ec) (map sin (map radians ea))))) ;;
           loop fuel' MeanAnom Eccen (Ref EccenAnom) EccenAnom'
       end
     else ret EccenAnom).
Proof. destruct fuel; reflexivity. Qed.

(** One test of the loop condition, and one execution of the body where
    it holds. *)
Lemma store_loop_step (fuel : nat) (MeanAnom Eccen : addr) (m ec : list R)
      (E : value) (EccenAnom : addr) (e ea : list R) (st : store) :
  nth_error (objects st) MeanAnom = Some (NDArray m) ->
  nth_error (objects st) Eccen = Some (NDArray ec) ->
  nth_error (objects st) EccenAnom = Some (NDArray ea) ->
  operand E ea st = Returned (e, st) ->
  loop fuel MeanAnom Eccen E EccenAnom st
  = match NumPy.max (vabs (vsub ea e)) with
    | Returned r =>
        if gt r 0.0001 then
          match fuel with
          | O => Running
          | S fuel' =>
              loop fuel' MeanAnom Eccen (Ref EccenAnom) (length (objects st))
                {| objects :=
                     objects st ++
                     [NDArray (vadd m (vmul (map degrees ec)
                                            (map sin (map radians ea))))];
                   log := log st |}
          end
        else Returned (EccenAnom, st)
    | Raised x => Raised x
    | Running => Running
    end.
Proof.
  intros Hm Hec Hea He. rewrite store_loop_unfold.
  rewrite (bind_get_array _ _ _ _ Hea).
  unfold bind at 1. rewrite He. rewrite bind_lift.
  destruct (NumPy.max (vabs (vsub ea e))) as [r | x |]; try reflexivity.
  destruct (gt r 0.0001); [| reflexivity].
  destruct fuel as [| fuel']; [reflexivity |].
  rewrite (bind_get_array _ _ _ _ Hm), (bind_get_array _ _ _ _ Hec).
  rewrite bind_new. reflexivity.
Qed.

(** The loop on the store follows the loop on the values: it adds
    arrays to the store, changes none, and returns the address of the
    array the loop on the values returns. *)
Lemma loop_simulates (MeanAnom Eccen : addr) (m ec : list R) (fuel : nat) :
  forall (E : value) (EccenAnom : addr) (e ea : list R) (st : store),
    nth_error (objects st) MeanAnom = Some (NDArray m) ->
    nth_error (objects st) Eccen = Some (NDArray ec) ->
    nth_error (objects st) EccenAnom = Some (NDArray ea) ->
    operand E ea st = Returned (e, st) ->
    match Kepler.loop fuel m ec {| Kepler.E := e; Kepler.EccenAnom := ea |} with
    | Returned s =>
        exists (a : addr) (news : list object),
          loop fuel MeanAnom Eccen E EccenAnom st
          = Returned (a, {| objects := objects st ++ news; log := log st |}) /\
          nth_error (objects st ++ news) a = Some (NDArray (Kepler.EccenAnom s))
    | Raised x => loop fuel MeanAnom Eccen E EccenAnom st = Raised x
    | Running => loop fuel MeanAnom Eccen E EccenAnom st = Running
    end.
Proof.
  induction fuel as [| fuel IH]; intros E EccenAnom e ea st Hm Hec Hea He;
    rewrite (store_loop_step _ _ _ _ _ _ _ _ _ _ Hm Hec Hea He);
    rewrite KeplerFacts.loop_unfold;
    unfold Kepler.residual; cbn [Kepler.E Kepler.EccenAnom];
    destruct (NumPy.max (vabs (vsub ea e))) as [r | x |]; cbn [outcome_bind];
    try reflexivity;
    destruct (gt r 0.0001); try reflexivity;
    try (exists EccenAnom, []; rewrite app_nil_r; split;
         [destruct st; reflexivity | exact Hea]).
  set (ea' := vadd m (vmul (map degrees ec) (map sin (map radians ea)))).
  set (st' := {| objects := objects st ++ [NDArray ea']; log := log st |}).
  assert (Hm' : nth_error (objects st') MeanAnom = Some (NDArray m))
    by (apply nth_error_app_old; exact Hm).
  assert (Hec' : nth_error (objects st') Eccen = Some (NDArray ec))
    by (apply nth_error_app_old; exact Hec).
  assert (Hea' : nth_error (objects st') (length (objects st))
                 = Some (NDArray ea'))
    by (cbn [objects st']; rewrite (nth_error_app_new _ _ _ 0) by lia;
        reflexivity).
  assert (He' : operand (Ref EccenAnom) ea' st' = Returned (ea, st')).
  { unfold operand, get_array. cbn [objects st'].
    rewrite (nth_error_app_old _ _ _ _ Hea). reflexivity. }
  specialize (IH (Ref EccenAnom) (length (objects st)) ea ea' st'
                 Hm' Hec' Hea' He').
  unfold Kepler.body. cbn [Kepler.E Kepler.EccenAnom]. fold ea'.
  destruct (Kepler.loop fuel m ec
              {| Kepler.E := ea; Kepler.EccenAnom := ea' |}) as [s | x |];
    try exact IH.
  destruct IH as (a & news & Hrun & Ha).
  exists a, (NDArray ea' :: news). split.
  - rewrite Hrun. cbn [objects log st']. rewrite <- app_assoc. reflexivity.
  - cbn [objects st'] in Ha. rewrite <- app_assoc in Ha. exact Ha.
Qed.

Lemma bind_unfold {A B : Type} (m : M A) (k : A -> M B) (st : store) :
  bind m k st
  = match m st with
    | Returned (a, st') => k a st'
    | Raised e => Raised e
    | Running => Running
    end.
Proof. reflexivity. Qed.

(** Running the statements of the body one at a time: the store after
    [k] allocations is [L ++ news], with the new objects at the addresses
    [length L + i]. *)
Ltac store_tidy :=
  cbn [objects log]; rewrite <- ?app_assoc; cbn [app];
  rewrite ?length_app; cbn [length].

Ltac store_lookup :=
  cbn [objects];
  first [ eassumption
        | rewrite (nth_error_app_new _ _ _ 0) by lia; reflexivity
        | rewrite (nth_error_app_new _ _ _ 1) by lia; reflexivity
        | rewrite (nth_error_app_new _ _ _ 2) by lia; reflexivity
        | rewrite (nth_error_app_new _ _ _ 3) by lia; reflexivity
        | apply nth_error_app_old; eassumption ].

Ltac store_update :=
  first [ rewrite (update_app_new _ _ _ _ 0) by lia
        | rewrite (update_app_new _ _ _ _ 1) by lia
        | rewrite (update_app_new _ _ _ _ 2) by lia
        | rewrite (update_app_new _ _ _ _ 3) by lia ];
  cbn [update].

(** Lines 328-366, up to the division of line 366. *)
Ltac run_to_line_366 :=
  erewrite bind_get_array by store_lookup; cbn beta;
  rewrite bind_new; store_tidy;
  erewrite bind_modify_array by store_lookup; store_tidy; store_update;
  rewrite bind_new; store_tidy;
  erewrite bind_get_array by store_lookup; cbn beta;
  rewrite bind_new; store_tidy;
  do 3 (erewrite bind_modify_array by store_lookup; store_tidy;
        store_update);
  rewrite bind_lift.

(** [ephemeris] on the store follows [ephemeris] on the values: it
    raises and runs on where that does, and where that returns a table
    it adds objects to the store, changes none, records one call in the
    log and returns the address of a new frame holding that table. *)
Lemma ephemeris_simulates (fuel : nat) (time location : addr)
      (tu : list Timestamp) (loc : Location) (p T : R) (st : store) :
  nth_error (objects st) time = Some (DatetimeIndex tu) ->
  nth_error (objects st) location = Some (LocationObject loc) ->
  match ephemeris_of_values fuel tu loc p T with
  | Returned rows =>
      exists (df : addr) (news : list object),
        ephemeris fuel time location p T st
        = Returned (df, {| objects := objects st ++ news;
                           log := log st ++ [(loc, T, p)] |}) /\
        nth_error (objects st ++ news) df = Some (frame tu rows) /\
        (length (objects st) <= df)%nat
  | Raised x => ephemeris fuel time location p T st = Raised x
  | Running => ephemeris fuel time location p T st = Running
  end.
Proof.
  intros Ht Hl. unfold ephemeris.
  rewrite (bind_get_location _ _ _ _ Hl), bind_debug.
  rewrite (bind_get_index _ tu) by exact Ht.
  rewrite !bind_new. cbn [objects log].
  rewrite bind_unfold.
  set (m := map MeanAnom tu). set (ec := map Eccen tu).
  set (st2 := {| objects := (objects st ++ [NDArray m]) ++ [NDArray ec];
                 log := log st ++ [(loc, T, p)] |}).
  assert (Hloop := loop_simulates (length (objects st))
                     (length (objects st ++ [NDArray m])) m ec fuel
                     (Scalar 0) (length (objects st)) (broadcast 0 m) m st2).
  assert (Hm : nth_error (objects st2) (length (objects st))
               = Some (NDArray m)).
  { cbn [objects st2]. rewrite <- app_assoc.
    rewrite (nth_error_app_new _ _ _ 0) by lia. reflexivity. }
  assert (Hec : nth_error (objects st2) (length (objects st ++ [NDArray m]))
                = Some (NDArray ec)).
  { cbn [objects st2]. rewrite (nth_error_app_new _ _ _ 0) by lia.
    reflexivity. }
  specialize (Hloop Hm Hec Hm eq_refl).
  unfold ephemeris_of_values, Kepler.solve, Kepler.init. fold m ec.
  destruct (Kepler.loop fuel m ec
              {| Kepler.E := broadcast 0 m; Kepler.EccenAnom := m |})
    as [s | x |]; cbn [outcome_bind];
    [| rewrite Hloop; reflexivity | rewrite Hloop; reflexivity].
  destruct Hloop as (a & news1 & Hrun & Ha). rewrite Hrun.
  set (ea := Kepler.EccenAnom s) in *.
  cbn [objects log st2] in *. clear Hm Hec Hrun.
  remember (((objects st ++ [NDArray m]) ++ [NDArray ec]) ++ news1)
    as L eqn:HL.
  destruct (Line.refraction_scale p T) as [scale | x |]; cbn [outcome_bind];
    [eexists; eexists; split; [| split] | | ].
  - run_to_line_366.
    erewrite bind_modify_array by store_lookup. store_tidy. store_update.
    erewrite bind_get_array by store_lookup. cbn beta.
    erewrite bind_get_array by store_lookup. cbn beta.
    rewrite bind_new. store_tidy.
    erewrite bind_setitem by store_lookup. store_tidy. store_update.
    erewrite bind_get_array by store_lookup. cbn beta.
    do 5 (erewrite bind_setitem by store_lookup; store_tidy; store_update).
    unfold ret.
    set (el := zipWith (SunEl loc) tu ea).
    rewrite (where_broadcast _ _ _ el tu) by apply zipWith_length_le.
    rewrite !where_map, map_map. unfold vadd. rewrite zipWith_map_r.
    rewrite HL, <- !app_assoc. reflexivity.
  - rewrite !app_assoc, <- HL.
    rewrite (nth_error_app_new _ _ _ 3) by lia. cbn [nth_error].
    unfold frame. rewrite !map_zipWith. reflexivity.
  - rewrite !length_app. lia.
  - run_to_line_366. reflexivity.
  - run_to_line_366. reflexivity.
Qed.

End StoreFacts.

(** ** The state the loop returns *)

Module KeplerStateFacts.
Import NumPy NumPyFacts Kepler.

(** Before the first test of the loop condition [EccenAnom] is the
    update of [E = 0]: the sine of 0 is 0. *)
Lemma init_is_a_step (Q : R -> R -> Prop) (M e : list R) :
  Forall2 Q M e ->
  Forall4 (fun m ec x y => Q m ec /\ y = kepler_step m ec x)
          M e (E (init M)) (EccenAnom (init M)).
Proof.
  intros H. unfold init, broadcast. cbn [E EccenAnom].
  induction H as [| m ec M e Hq _ IH]; simpl; constructor; [| exact IH].
  split; [exact Hq |].
  unfold kepler_step, radians. rewrite Rmult_0_l, sin_0. ring.
Qed.

(** Every state the loop tests has [EccenAnom] the update of [E], at
    every index. *)
Lemma loop_keeps_step (Q : R -> R -> Prop) (fuel : nat) :
  forall (M e : list R) (s s' : state),
    Forall4 (fun m ec x y => Q m ec /\ y = kepler_step m ec x)
            M e (E s) (EccenAnom s) ->
    loop fuel M e s = Returned s' ->
    Forall4 (fun m ec x y => Q m ec /\ y = kepler_step m ec x)
            M e (E s') (EccenAnom s').
Proof.
  induction fuel as [| fuel IH]; intros M e s s' Hinv;
    rewrite KeplerFacts.loop_unfold;
    destruct (residual s) as [r | x |]; cbn [bind]; try discriminate;
    destruct (gt r 0.0001); try discriminate;
    try (intros [= <-]; exact Hinv).
  apply IH. unfold body. cbn [E EccenAnom].
  refine (KeplerFacts.body_elementwise M e (E s) (EccenAnom s) _ Hinv).
  intros m ec x y [Hq _]. split; [exact Hq | reflexivity].
Qed.

Lemma Forall4_shape {A B C D : Type} (P : A -> B -> C -> D -> Prop)
      (la : list A) (lb : list B) (lc : list C) (ld : list D) :
  Forall4 P la lb lc ld ->
  length lb = length la /\ length lc = length la /\ length ld = length la.
Proof.
  intros H. induction H as [| a b c d la lb lc ld _ _ (H1 & H2 & H3)]; simpl;
    repeat split; congruence.
Qed.

Lemma Forall4_impl {A B C D : Type} (P Q : A -> B -> C -> D -> Prop)
      (la : list A) (lb : list B) (lc : list C) (ld : list D) :
  (forall a b c d, P a b c d -> Q a b c d) ->
  Forall4 P la lb lc ld -> Forall4 Q la lb lc ld.
Proof.
  intros HPQ H. induction H; constructor; auto.
Qed.

(** The loop condition bounds the change at every index. *)
Lemma Forall4_within_residual (P : R -> R -> R -> R -> Prop) (r : R)
      (M e E EA : list R) :
  (forall v, In v (vabs (vsub EA E)) -> v <= r) ->
  Forall4 P M e E EA ->
  Forall4 (fun m ec x y => P m ec x y /\ Rabs (y - x) <= r) M e E EA.
Proof.
  intros Hr H. induction H as [| m ec x y M e E EA Hp _ IH]; constructor.
  - split; [exact Hp |]. apply Hr. left. reflexivity.
  - apply IH. intros v Hv. apply Hr. right. exact Hv.
Qed.

(** A returned [EccenAnom] has the shape of [MeanAnom]. *)
Lemma solve_shape (fuel : nat) (M e : list R) (s : state) :
  length e = length M ->
  solve fuel M e = Returned s ->
  length (EccenAnom s) = length M.
Proof.
  intros Hlen Hs.
  assert (H2 : Forall2 (fun _ _ => True) M e).
  { clear Hs. revert e Hlen. induction M as [| m M IH]; intros [| ec e] Hlen;
      simpl in Hlen; try discriminate; constructor; auto. }
  pose proof (loop_keeps_step _ fuel M e (init M) s
                (init_is_a_step _ M e H2) Hs) as Hinv.
  apply Forall4_shape in Hinv. apply Hinv.
Qed.

End KeplerStateFacts.

(** X1.  On every index of instants pandas represents that is not
    empty and repeats no instant, and at every temperature but -273,
    [ephemeris] returns after at most four executions of the body of its
    loop, with one row for each instant. *)
Theorem ephemeris_returns_a_row_per_instant
        (fuel : nat) (time_utc : list Timestamp) (location : Location)
        (pressure temperature : R) :
  (4 <= fuel)%nat ->
  time_utc <> [] ->
  NoDup time_utc ->
  Forall (fun t => valid_timestamp t = true) time_utc ->
  273 + temperature <> 0 ->
  exists rows,
    ephemeris fuel time_utc location pressure temperature = Returned rows /\
    length rows = length time_utc.
Proof.
  intros Hfuel Hne _ Hvalid Hnz.
  destruct (EphemerisFacts.ephemeris_returns fuel time_utc location pressure
              temperature Hfuel Hne Hvalid Hnz) as [rows H].
  exists rows. split; [exact H |].
  apply EphemerisFacts.ephemeris_returned in H.
  destruct H as (s & Hs & _ & ->).
  apply KeplerStateFacts.solve_shape in Hs; [| rewrite !length_map; reflexivity].
  rewrite length_map in Hs.
  apply NumPyFacts.zipWith_length. symmetry. exact Hs.
Qed.

Lemma ephemeris_returns_a_row_per_instant_witness :
  exists rows,
    ephemeris 4 [tus_time] tus 101325 12 = Returned rows /\
    length rows = 1%nat.
Proof.
  apply (ephemeris_returns_a_row_per_instant 4 [tus_time] tus 101325 12).
  - apply le_n.
  - discriminate.
  - constructor; [intros [] | constructor].
  - constructor; [reflexivity | constructor].
  - lra.
Defined.

(** X2.  On an empty index [ephemeris] raises [ValueError]: the loop
    condition of line 324 takes the maximum of a zero-size array. *)
Theorem ephemeris_raises_on_empty_index
        (fuel : nat) (location : Location) (pressure temperature : R) :
  ephemeris fuel [] location pressure temperature = Raised ValueError.
Proof.
  unfold ephemeris. cbn [map]. rewrite KeplerFacts.solve_empty. reflexivity.
Qed.

(** X4.  Where every eccentricity is at most 0.02 in absolute value, the
    eccentric anomaly the loop returns satisfies Kepler's equation
    [EccenAnom = MeanAnom + degrees(Eccen) * sin(radians(EccenAnom))] to
    within 2e-6 degrees at every index: the last change is at most 1e-4,
    and one more update would change it by at most 0.02 times that. *)
Theorem kepler_equation_solved_within_2e6
        (fuel : nat) (MeanAnom Eccen : list R) (s : Kepler.state) :
  Forall2 (fun m ec => Rabs ec <= 0.02) MeanAnom Eccen ->
  Kepler.solve fuel MeanAnom Eccen = Returned s ->
  Forall4 (fun m ec _ y => Rabs (kepler_step m ec y - y) <= 2e-6)
          MeanAnom Eccen (Kepler.E s) (Kepler.EccenAnom s).
Proof.
  intros He Hs.
  pose proof (KeplerStateFacts.loop_keeps_step _ fuel MeanAnom Eccen
                (Kepler.init MeanAnom) s
                (KeplerStateFacts.init_is_a_step _ MeanAnom Eccen He) Hs)
    as Hinv.
  destruct (KeplerFacts.loop_returns_within_tolerance _ _ _ _ _ Hs)
    as (r & Hr & Hsmall).
  apply (KeplerStateFacts.Forall4_within_residual _ r) in Hinv.
  - revert Hinv. apply KeplerStateFacts.Forall4_impl.
    intros m ec x y [[Hec Hy] Hd].
    rewrite Hy at 2.
    eapply Rle_trans; [apply KeplerFacts.kepler_step_contracts |].
    pose proof (Rabs_pos ec). pose proof (Rabs_pos (y - x)). nra.
  - intros v Hv. apply (NumPyFacts.max_upper _ _ _ Hr Hv).
Qed.

Lemma kepler_equation_solved_within_2e6_witness :
  exists s,
    Kepler.solve 4 [90] [0.0167] = Returned s /\
    Forall4 (fun m ec _ y => Rabs (kepler_step m ec y - y) <= 2e-6)
            [90] [0.0167] (Kepler.E s) (Kepler.EccenAnom s).
Proof.
  assert (He : Forall2 (fun m ec : R => Rabs ec <= 0.02) [90] [0.0167]).
  { constructor; [apply Rabs_le; lra | constructor]. }
  destruct (KeplerFacts.solve_converges 4 [90] [0.0167] (le_n 4)) as (s & _ & Hs & _).
  - discriminate.
  - exact He.
  - exists s. split; [exact Hs |].
    exact (kepler_equation_solved_within_2e6 4 [90] [0.0167] s He Hs).
Defined.

(** ** Whole turns of longitude *)

Module LongitudeFacts.
Import NumPy NumPyFacts.

Lemma mod_turns (x y : R) (k : Z) : 0 < y -> mod_ (x + IZR k * y) y = mod_ x y.
Proof.
  intros Hy. unfold mod_.
  assert (E : (x + IZR k * y) / y = x / y + IZR k) by (field; lra).
  rewrite E.
  rewrite (floor_unique (x / y + IZR k) (Int_part (x / y) + k)).
  - rewrite plus_IZR. unfold floor. ring.
  - rewrite plus_IZR. pose proof (floor_bounds (x / y)) as Hf.
    unfold floor in Hf. lra.
Qed.

(** The longitude reaches a row through the local sidereal time only. *)
Lemma row_of_LocAST (location location' : Location) (t : Timestamp)
      (EccenAnom scale : R) :
  latitude location' = latitude location ->
  LocAST location' t = LocAST location t ->
  row location' t EccenAnom scale = row location t EccenAnom scale.
Proof.
  intros Hlat Hast.
  unfold row, ApparentSunEl, SolarTime, SunEl, SunEl_arg, SunAz, SunAz_343,
    HrAngle, HrAngleR, HrAngle_338, LatR, Latitude.
  rewrite Hlat, Hast. reflexivity.
Qed.

Lemma zipWith_ext {A B C : Type} (f g : A -> B -> C)
      (l1 : list A) (l2 : list B) :
  (forall a b, f a b = g a b) -> zipWith f l1 l2 = zipWith g l1 l2.
Proof.
  intros H. revert l2. induction l1 as [| a l1 IH]; intros [| b l2]; simpl;
    try reflexivity.
  rewrite H, IH. reflexivity.
Qed.

End LongitudeFacts.

(** X5.  A longitude and the same longitude plus any whole number of
    turns give the same outcome: [ephemeris] reads the longitude only
    under the [mod 360] of line 309. *)
Theorem ephemeris_longitude_is_periodic
        (fuel : nat) (time_utc : list Timestamp) (lat lon : R) (k : Z)
        (pressure temperature : R) :
  ephemeris fuel time_utc
            {| latitude := lat; longitude := lon + 360 * IZR k |}
            pressure temperature
  = ephemeris fuel time_utc {| latitude := lat; longitude := lon |}
              pressure temperature.
Proof.
  unfold ephemeris.
  destruct (Kepler.solve fuel (map MeanAnom time_utc) (map Eccen time_utc))
    as [s | x |]; cbn [bind]; try reflexivity.
  destruct (Line.refraction_scale pressure temperature) as [scale | x |];
    cbn [bind]; try reflexivity.
  f_equal. apply LongitudeFacts.zipWith_ext. intros t EA.
  apply LongitudeFacts.row_of_LocAST; [reflexivity |].
  unfold LocAST, Line.local_sidereal_time, Longitude. cbn [longitude].
  replace (360 + GMSTi t - -1 * (lon + 360 * IZR k))
    with (360 + GMSTi t - -1 * lon + IZR k * 360) by ring.
  apply LongitudeFacts.mod_turns. lra.
Qed.

(** ** Arguments of the square root, the arcsines and the tangent *)

Module DomainFacts.
Import NumPy NumPyFacts.

Lemma ObliquityR_range (t : Timestamp) :
  valid_timestamp t = true -> 0 < ObliquityR t < PI / 2.
Proof.
  intros H. pose proof (EphemerisFacts.T1_range t H) as HT.
  unfold ObliquityR, radians. set (x := T1 t) in *.
  assert (H2 : 0 <= x ^ 2 <= 16) by nra.
  assert (H3 : -27 <= x ^ 3 <= 64).
  { replace (x ^ 3) with (x * (x * x)) by ring.
    destruct (Rle_or_lt 0 x) as [Hpos | Hneg].
    - assert (0 <= x * x <= 16) by nra.
      assert (0 <= x * (x * x)) by (apply Rmult_le_pos; lra).
      assert (x * (x * x) <= 4 * 16) by (apply Rmult_le_compat; lra).
      lra.
    - assert (0 <= x * x <= 9) by nra.
      assert (- x * (x * x) <= 3 * 9) by (apply Rmult_le_compat; lra).
      assert (0 <= - x * (x * x)) by (apply Rmult_le_pos; lra).
      lra. }
  pose proof PI_RGT_0 as Hpi.
  assert (Hd : 23 < 23.452294 - 0.0130125 * x - 1.64e-06 * x ^ 2
                    + 5.03e-07 * x ^ 3 < 24) by lra.
  split; nra.
Qed.

Lemma sin_ObliquityR_range (t : Timestamp) :
  valid_timestamp t = true -> 0 < sin (ObliquityR t) < 1.
Proof.
  intros H. destruct (ObliquityR_range t H) as [H0 H1].
  pose proof PI_RGT_0 as Hpi. split.
  - apply sin_gt_0; lra.
  - rewrite <- sin_PI2. apply sin_increasing_1; lra.
Qed.

Lemma DecR_range (t : Timestamp) (EccenAnom : R) :
  valid_timestamp t = true ->
  - (PI / 2) < DecR t EccenAnom < PI / 2.
Proof.
  intros H. unfold DecR, arcsin. apply asin_bound_lt.
  pose proof (sin_ObliquityR_range t H) as Ho.
  pose proof (SIN_bound (EcLonR t EccenAnom)) as He.
  split; nra.
Qed.

End DomainFacts.

(** X6.  For every instant pandas represents, the operations of lines
    329-348 stay inside their domains: the eccentricity is below 1, so
    the quotient under the square root of line 329 is positive; both
    arcsines (lines 333 and 346) get arguments in [-1, 1]; and the
    declination stays strictly between -90 and 90 degrees, so that the
    tangent of line 342 is taken where the cosine is positive. *)
Theorem ephemeris_stays_in_domain (t : Timestamp) :
  valid_timestamp t = true ->
  0 < 1 - Eccen t /\
  0 < (1 + Eccen t) / (1 - Eccen t) /\
  forall (location : Location) (EccenAnom : R),
    -1 <= sin (ObliquityR t) * sin (EcLonR t EccenAnom) <= 1 /\
    -1 <= SunEl_arg location t EccenAnom <= 1 /\
    - (PI / 2) < DecR t EccenAnom < PI / 2 /\
    0 < cos (DecR t EccenAnom).
Proof.
  intros H. pose proof (EphemerisFacts.Eccen_range t H) as He.
  split; [lra |]. split.
  - apply Rdiv_lt_0_compat; lra.
  - intros location EA.
    split; [apply InstantFacts.DecR_arg_in_domain |].
    split; [apply InstantFacts.SunEl_arg_in_domain |].
    pose proof (DomainFacts.DecR_range t EA H) as Hd.
    split; [exact Hd |]. apply cos_gt_0; lra.
Qed.

Lemma ephemeris_stays_in_domain_witness :
  0 < 1 - Eccen tus_time /\
  0 < (1 + Eccen tus_time) / (1 - Eccen tus_time) /\
  forall (location : Location) (EccenAnom : R),
    -1 <= sin (ObliquityR tus_time) * sin (EcLonR tus_time EccenAnom) <= 1 /\
    -1 <= SunEl_arg location tus_time EccenAnom <= 1 /\
    - (PI / 2) < DecR tus_time EccenAnom < PI / 2 /\
    0 < cos (DecR tus_time EccenAnom).
Proof.
  apply (ephemeris_stays_in_domain tus_time). reflexivity.
Defined.

(** ** The hour angle (C5) *)

Module HourAngleFacts.
Import NumPy.







End HourAngleFacts.



(** ** The sign of the refraction *)

Module RefractionSignFacts.
Import NumPy NumPyFacts.

Lemma first_branch_positive (t : R) :
  0 < t -> 0 < 58.1 / t - 0.07 / t ^ 3 + 8.6e-5 / t ^ 5.
Proof.
  intros Ht.
  assert (Hu : 0 < / t) by (apply Rinv_0_lt_compat; exact Ht).
  set (u := / t) in *.
  replace (58.1 / t - 0.07 / t ^ 3 + 8.6e-5 / t ^ 5)
    with (u * (58.1 - 0.07 * (u * u) + 8.6e-5 * ((u * u) * (u * u))))
    by (unfold u; field; lra).
  apply Rmult_lt_0_compat; [exact Hu |].
  set (w := u * u).
  assert (0 <= (w - 400) * (w - 400)) by apply Rle_0_sqr.
  nra.
Qed.

Lemma second_branch_positive (e : R) :
  -0.575 < e <= 5 ->
  0 < e * (-518.2 + e * (103.4 + e * (-12.79 + e * 0.711))) + 1735.
Proof.
  intros He.
  destruct (Rle_or_lt e 0) as [Hneg | Hpos].
  - assert (0 <= e * e) by apply Rle_0_sqr.
    assert (0 <= (e * e) * (e * e)) by apply Rle_0_sqr.
    assert (0 <= - e * (e * e)) by nra.
    nra.
  - assert (H2 : 0 <= e * e) by apply Rle_0_sqr.
    assert (H4 : 0 <= (e * e) * (e * e)) by apply Rle_0_sqr.
    assert (H3 : 0 <= (e * e) * (103.4 - 12.79 * e)) by (apply Rmult_le_pos; lra).
    assert (Hq : 0 <= (e - 6.5) * (e - 6.5)) by apply Rle_0_sqr.
    nra.
Qed.

Lemma third_branch_positive (t : R) : t < 0 -> 0 < -20.774 / t.
Proof.
  intros Ht. assert (/ t < 0) by (apply Rinv_lt_0_compat; exact Ht).
  unfold Rdiv. nra.
Qed.

(** No branch of lines 355-364 is negative. *)
Lemma Refract_364_nonneg (Elevation : R) : 0 <= Refract_364 Elevation.
Proof.
  unfold Refract_364, Refract_362, Refract_358, Refract_355, gt, le.
  destruct (Rgt_dec Elevation (-1)) as [H1 | H1];
    destruct (Rle_dec Elevation (-0.575)) as [H2 | H2]; cbn [andb].
  - apply Rlt_le. apply third_branch_positive.
    apply RefractionFacts.TanEl_negative. lra.
  - destruct (Rgt_dec Elevation (-0.575)) as [H3 | H3]; [| lra].
    destruct (Rle_dec Elevation 5) as [H4 | H4]; cbn [andb].
    + apply Rlt_le. apply second_branch_positive. lra.
    + destruct (Rgt_dec Elevation 5) as [H5 | H5]; [| lra].
      destruct (Rle_dec Elevation 85) as [H6 | H6]; cbn [andb]; [| lra].
      apply Rlt_le. apply first_branch_positive.
      apply RefractionFacts.TanEl_positive. lra.
  - destruct (Rgt_dec Elevation (-0.575)) as [H3 | H3]; [lra |]. cbn [andb].
    destruct (Rgt_dec Elevation 5) as [H5 | H5]; [lra |]. cbn [andb]. lra.
  - lra.
Qed.

Lemma scale_factor_nonneg (temperature pressure : R) :
  0 <= pressure -> -273 < temperature ->
  0 <= scale_factor temperature pressure.
Proof.
  intros Hp HT. unfold scale_factor.
  assert (0 < / (273 + temperature)) by (apply Rinv_0_lt_compat; lra).
  unfold Rdiv. apply Rmult_le_pos; [| lra].
  apply Rmult_le_pos; nra.
Qed.

End RefractionSignFacts.

(** X7.  Where the pressure is not negative and the temperature is
    above -273, the refraction correction is not negative in any branch:
    in every row of a returned table [apparent_elevation] is at least
    [elevation], and [apparent_zenith] at most [zenith]. *)
Theorem refraction_raises_the_sun
        (fuel : nat) (time_utc : list Timestamp) (location : Location)
        (pressure temperature : R) (rows : list SolarPosition) :
  0 <= pressure ->
  -273 < temperature ->
  ephemeris fuel time_utc location pressure temperature = Returned rows ->
  Forall (fun r => elevation r <= apparent_elevation r /\
                   apparent_zenith r <= zenith r) rows.
Proof.
  intros Hp HT H. apply (EphemerisFacts.ephemeris_rows _ _ _ _ _ _ _ H).
  intros t EA _ _.
  cbn [elevation apparent_elevation zenith apparent_zenith row].
  unfold ApparentSunEl, Refract.
  pose proof (RefractionSignFacts.Refract_364_nonneg (SunEl location t EA)) as Hr.
  pose proof (RefractionSignFacts.scale_factor_nonneg temperature pressure Hp HT)
    as Hs.
  assert (0 <= Refract_364 (SunEl location t EA)
               * scale_factor temperature pressure)
    by (apply Rmult_le_pos; assumption).
  lra.
Qed.

Lemma refraction_raises_the_sun_witness :
  exists rows,
    ephemeris 4 [tus_time] tus 101325 12 = Returned rows /\
    Forall (fun r => elevation r <= apparent_elevation r /\
                     apparent_zenith r <= zenith r) rows.
Proof.
  destruct SampleFacts.tus_returns as [rows H].
  exists rows. split; [exact H |].
  apply (refraction_raises_the_sun 4 [tus_time] tus 101325 12 rows);
    [lra | lra | exact H].
Defined.

(** ** What a call leaves in the store *)

Module StoreResultFacts.
Local Abbreviation ephemeris_of_values := ephemeris.
Import Store.

(** A call that returns has added objects to the store, changed none,
    recorded itself in the log and returned the address of a new frame
    that holds the table of [ephemeris] on the values. *)
Lemma ephemeris_returned_in_store (fuel : nat) (time location : addr)
      (tu : list Timestamp) (loc : Location) (p T : R)
      (st st' : store) (df : addr) :
  nth_error (objects st) time = Some (DatetimeIndex tu) ->
  nth_error (objects st) location = Some (LocationObject loc) ->
  ephemeris fuel time location p T st = Returned (df, st') ->
  exists (rows : list SolarPosition) (news : list object),
    ephemeris_of_values fuel tu loc p T = Returned rows /\
    st' = {| objects := objects st ++ news; log := log st ++ [(loc, T, p)] |} /\
    nth_error (objects st') df = Some (frame tu rows) /\
    (length (objects st) <= df)%nat.
Proof.
  intros Ht Hl Hrun.
  pose proof (StoreFacts.ephemeris_simulates fuel time location tu loc p T st
                Ht Hl) as Hsim.
  destruct (ephemeris_of_values fuel tu loc p T) as [rows | x |];
    [| congruence | congruence].
  destruct Hsim as (df' & news & Hrun' & Hdf & Hnew).
  rewrite Hrun in Hrun'. injection Hrun' as -> ->.
  exists rows, news. repeat split; assumption.
Qed.

(** Where [ephemeris] on the values returns, so does the call. *)
Lemma ephemeris_returns_in_store (fuel : nat) (time location : addr)
      (tu : list Timestamp) (loc : Location) (p T : R) (st : store)
      (rows : list SolarPosition) :
  nth_error (objects st) time = Some (DatetimeIndex tu) ->
  nth_error (objects st) location = Some (LocationObject loc) ->
  ephemeris_of_values fuel tu loc p T = Returned rows ->
  exists (df : addr) (st' : store),
    ephemeris fuel time location p T st = Returned (df, st').
Proof.
  intros Ht Hl Hrows.
  pose proof (StoreFacts.ephemeris_simulates fuel time location tu loc p T st
                Ht Hl) as Hsim.
  rewrite Hrows in Hsim. destruct Hsim as (df & news & Hrun & _).
  eexists. eexists. exact Hrun.
Qed.

End StoreResultFacts.

(** X8.  A call of [ephemeris] that returns has changed no object that
    existed before it, [time] and [location] among them: the in-place
    updates of lines 344, 357-366 and 372-377 all fall on arrays and on
    the frame that the call itself created.  It has given one record to
    the logger, and the frame it returns is a new object that holds the
    table computed from the values of [time], [location], [pressure] and
    [temperature]. *)
Theorem ephemeris_changes_no_existing_object
        (fuel : nat) (time location : Store.addr)
        (time_utc : list Timestamp) (loc : Location)
        (pressure temperature : R) (st st' : Store.store) (df : Store.addr) :
  nth_error (Store.objects st) time = Some (Store.DatetimeIndex time_utc) ->
  nth_error (Store.objects st) location = Some (Store.LocationObject loc) ->
  Store.ephemeris fuel time location pressure temperature st
  = Returned (df, st') ->
  (forall a o, nth_error (Store.objects st) a = Some o ->
               nth_error (Store.objects st') a = Some o) /\
  nth_error (Store.objects st) df = None /\
  Store.log st' = Store.log st ++ [(loc, temperature, pressure)] /\
  exists rows,
    ephemeris fuel time_utc loc pressure temperature = Returned rows /\
    nth_error (Store.objects st') df = Some (Store.frame time_utc rows).
Proof.
  intros Ht Hl Hrun.
  destruct (StoreResultFacts.ephemeris_returned_in_store
              _ _ _ _ _ _ _ _ _ _ Ht Hl Hrun)
    as (rows & news & Hrows & -> & Hdf & Hnew).
  cbn [Store.objects Store.log] in *.
  split; [| split; [| split]].
  - intros a o Ha. apply StoreFacts.nth_error_app_old. exact Ha.
  - apply nth_error_None. exact Hnew.
  - reflexivity.
  - exists rows. split; assumption.
Qed.

Lemma ephemeris_changes_no_existing_object_witness :
  exists (df : Store.addr) (st' : Store.store),
    Store.ephemeris 4 0%nat 1%nat 101325 12 (Store.caller [tus_time] tus)
    = Returned (df, st') /\
    nth_error (Store.objects st') 0%nat = Some (Store.DatetimeIndex [tus_time]) /\
    nth_error (Store.objects st') 1%nat = Some (Store.LocationObject tus) /\
    Store.log st' = [(tus, 12, 101325)].
Proof.
  destruct SampleFacts.tus_returns as [rows Hrows].
  destruct (StoreResultFacts.ephemeris_returns_in_store
              4%nat 0%nat 1%nat [tus_time] tus 101325 12 (Store.caller [tus_time] tus)
              rows eq_refl eq_refl Hrows) as (df & st' & Hrun).
  exists df, st'.
  destruct (ephemeris_changes_no_existing_object
              4%nat 0%nat 1%nat [tus_time] tus 101325 12 (Store.caller [tus_time] tus)
              st' df eq_refl eq_refl Hrun) as (Hold & _ & Hlog & _).
  split; [exact Hrun |].
  split; [apply Hold; reflexivity |].
  split; [apply Hold; reflexivity | exact Hlog].
Defined.

(** X9.  A second call with the same arguments, made in the store the
    first call left, returns a second frame, at another address, with
    the same index and the same columns; the frame of the first call is
    unchanged by it. *)
Theorem second_call_returns_an_equal_table
        (fuel : nat) (time location : Store.addr)
        (time_utc : list Timestamp) (loc : Location)
        (pressure temperature : R) (st st1 st2 : Store.store)
        (df1 df2 : Store.addr) :
  nth_error (Store.objects st) time = Some (Store.DatetimeIndex time_utc) ->
  nth_error (Store.objects st) location = Some (Store.LocationObject loc) ->
  Store.ephemeris fuel time location pressure temperature st
  = Returned (df1, st1) ->
  Store.ephemeris fuel time location pressure temperature st1
  = Returned (df2, st2) ->
  df1 <> df2 /\
  exists table,
    nth_error (Store.objects st1) df1 = Some table /\
    nth_error (Store.objects st2) df1 = Some table /\
    nth_error (Store.objects st2) df2 = Some table.
Proof.
  intros Ht Hl Hrun1 Hrun2.
  destruct (StoreResultFacts.ephemeris_returned_in_store
              _ _ _ _ _ _ _ _ _ _ Ht Hl Hrun1)
    as (rows1 & news1 & Hrows1 & Hst1 & Hdf1 & Hnew1).
  assert (Ht1 : nth_error (Store.objects st1) time
                = Some (Store.DatetimeIndex time_utc))
    by (rewrite Hst1; apply StoreFacts.nth_error_app_old; exact Ht).
  assert (Hl1 : nth_error (Store.objects st1) location
                = Some (Store.LocationObject loc))
    by (rewrite Hst1; apply StoreFacts.nth_error_app_old; exact Hl).
  destruct (StoreResultFacts.ephemeris_returned_in_store
              _ _ _ _ _ _ _ _ _ _ Ht1 Hl1 Hrun2)
    as (rows2 & news2 & Hrows2 & Hst2 & Hdf2 & Hnew2).
  assert (rows2 = rows1) by congruence. subst rows2.
  split.
  - intros <-.
    assert (df1 < length (Store.objects st1))%nat
      by (apply nth_error_Some; congruence).
    lia.
  - exists (Store.frame time_utc rows1). split; [exact Hdf1 |]. split.
    + rewrite Hst2. apply StoreFacts.nth_error_app_old. exact Hdf1.
    + exact Hdf2.
Qed.

Lemma second_call_returns_an_equal_table_witness :
  exists (df1 df2 : Store.addr) (st1 st2 : Store.store) (table : Store.object),
    Store.ephemeris 4 0%nat 1%nat 101325 12 (Store.caller [tus_time] tus)
    = Returned (df1, st1) /\
    Store.ephemeris 4 0%nat 1%nat 101325 12 st1 = Returned (df2, st2) /\
    df1 <> df2 /\
    nth_error (Store.objects st2) df1 = Some table /\
    nth_error (Store.objects st2) df2 = Some table.
Proof.
  destruct SampleFacts.tus_returns as [rows Hrows].
  destruct (StoreResultFacts.ephemeris_returns_in_store
              4%nat 0%nat 1%nat [tus_time] tus 101325 12 (Store.caller [tus_time] tus)
              rows eq_refl eq_refl Hrows) as (df1 & st1 & Hrun1).
  destruct (StoreResultFacts.ephemeris_returned_in_store
              4%nat 0%nat 1%nat [tus_time] tus 101325 12
              (Store.caller [tus_time] tus) st1 df1 eq_refl eq_refl Hrun1)
    as (rows1 & news1 & _ & Hst1 & _).
  assert (Ht1 : nth_error (Store.objects st1) 0%nat
                = Some (Store.DatetimeIndex [tus_time]))
    by (rewrite Hst1; reflexivity).
  assert (Hl1 : nth_error (Store.objects st1) 1%nat
                = Some (Store.LocationObject tus))
    by (rewrite Hst1; reflexivity).
  destruct (StoreResultFacts.ephemeris_returns_in_store
              4%nat 0%nat 1%nat [tus_time] tus 101325 12 st1 rows Ht1 Hl1 Hrows)
    as (df2 & st2 & Hrun2).
  destruct (second_call_returns_an_equal_table
              4%nat 0%nat 1%nat [tus_time] tus 101325 12 (Store.caller [tus_time] tus)
              st1 st2 df1 df2 eq_refl eq_refl Hrun1 Hrun2)
    as (Hneq & table & _ & H1 & H2).
  exists df1, df2, st1, st2, table. repeat split; assumption.
Defined.

(** ** Two calls (C9) *)

Module DeterminismFacts.

(** The state the loop returns is the same however many executions of
    the body were followed. *)
Lemma loop_returned_any_fuel (fuel : nat) :
  forall (fuel' : nat) (M e : list R) (s r r' : Kepler.state),
    Kepler.loop fuel M e s = Returned r ->
    Kepler.loop fuel' M e s = Returned r' ->
    r = r'.
Proof.
  induction fuel as [| fuel IH]; intros fuel' M e s r r' H H';
    rewrite KeplerFacts.loop_unfold in H, H';
    destruct (Kepler.residual s) as [x | x |]; cbn [bind] in H, H';
    try discriminate;
    destruct (NumPy.gt x 0.0001); try discriminate; try congruence.
  destruct fuel' as [| fuel']; [discriminate |]. exact (IH _ _ _ _ _ _ H H').
Qed.

Lemma ephemeris_returned_any_fuel
      (fuel fuel' : nat) (time_utc : list Timestamp) (location : Location)
      (pressure temperature : R) (rows rows' : list SolarPosition) :
  ephemeris fuel time_utc location pressure temperature = Returned rows ->
  ephemeris fuel' time_utc location pressure temperature = Returned rows' ->
  rows = rows'.
Proof.
  intros H H'.
  apply EphemerisFacts.ephemeris_returned in H, H'.
  destruct H as (s & Hs & _ & ->). destruct H' as (s' & Hs' & _ & ->).
  unfold Kepler.solve in Hs, Hs'.
  rewrite (loop_returned_any_fuel _ _ _ _ _ _ _ Hs Hs'). reflexivity.
Qed.

End DeterminismFacts.

(** C9.  Two calls of [ephemeris] whose arguments hold the same instants
    and the same location, with the same pressure and temperature, return
    frames with the same index and the same columns: that of the table
    computed from the values of the arguments.  This holds in whatever
    stores the two calls are made, the second may be the store the first
    call left, and neither the objects in the store nor what the logger
    has recorded enter the table.  Neither call changes an object that
    existed before it, so [time] and [location] hold after each call what
    they held before. *)
Theorem ephemeris_is_deterministic_and_keeps_its_inputs
        (fuel fuel' : nat) (time location time' location' : Store.addr)
        (time_utc : list Timestamp) (loc : Location)
        (pressure temperature : R) (st st' st1 st2 : Store.store)
        (df1 df2 : Store.addr) :
  nth_error (Store.objects st) time = Some (Store.DatetimeIndex time_utc) ->
  nth_error (Store.objects st) location = Some (Store.LocationObject loc) ->
  nth_error (Store.objects st') time' = Some (Store.DatetimeIndex time_utc) ->
  nth_error (Store.objects st') location' = Some (Store.LocationObject loc) ->
  Store.ephemeris fuel time location pressure temperature st
  = Returned (df1, st1) ->
  Store.ephemeris fuel' time' location' pressure temperature st'
  = Returned (df2, st2) ->
  (exists rows,
      ephemeris fuel time_utc loc pressure temperature = Returned rows /\
      nth_error (Store.objects st1) df1 = Some (Store.frame time_utc rows) /\
      nth_error (Store.objects st2) df2 = Some (Store.frame time_utc rows)) /\
  (nth_error (Store.objects st1) time = Some (Store.DatetimeIndex time_utc) /\
   nth_error (Store.objects st1) location = Some (Store.LocationObject loc) /\
   nth_error (Store.objects st2) time' = Some (Store.DatetimeIndex time_utc) /\
   nth_error (Store.objects st2) location' = Some (Store.LocationObject loc)) /\
  (forall a o, nth_error (Store.objects st) a = Some o ->
               nth_error (Store.objects st1) a = Some o) /\
  (forall a o, nth_error (Store.objects st') a = Some o ->
               nth_error (Store.objects st2) a = Some o).
Proof.
  intros Ht Hl Ht' Hl' Hrun1 Hrun2.
  destruct (StoreResultFacts.ephemeris_returned_in_store
              _ _ _ _ _ _ _ _ _ _ Ht Hl Hrun1)
    as (rows1 & news1 & Hrows1 & Hst1 & Hdf1 & _).
  destruct (StoreResultFacts.ephemeris_returned_in_store
              _ _ _ _ _ _ _ _ _ _ Ht' Hl' Hrun2)
    as (rows2 & news2 & Hrows2 & Hst2 & Hdf2 & _).
  assert (Hsame : rows1 = rows2)
    by exact (DeterminismFacts.ephemeris_returned_any_fuel
                _ _ _ _ _ _ _ _ Hrows1 Hrows2).
  subst rows2.
  assert (Hold1 : forall a o, nth_error (Store.objects st) a = Some o ->
                              nth_error (Store.objects st1) a = Some o).
  { intros a o Ha. rewrite Hst1. cbn [Store.objects].
    apply StoreFacts.nth_error_app_old. exact Ha. }
  assert (Hold2 : forall a o, nth_error (Store.objects st') a = Some o ->
                              nth_error (Store.objects st2) a = Some o).
  { intros a o Ha. rewrite Hst2. cbn [Store.objects].
    apply StoreFacts.nth_error_app_old. exact Ha. }
  split; [exists rows1; repeat split; assumption |].
  split; [| split; assumption].
  repeat split; [apply Hold1 | apply Hold1 | apply Hold2 | apply Hold2];
    assumption.
Qed.

Lemma ephemeris_is_deterministic_and_keeps_its_inputs_witness :
  exists (df1 df2 : Store.addr) (st1 st2 : Store.store)
         (rows : list SolarPosition),
    Store.ephemeris 4 0%nat 1%nat 101325 12 (Store.caller [tus_time] tus)
    = Returned (df1, st1) /\
    Store.ephemeris 4 0%nat 1%nat 101325 12 st1 = Returned (df2, st2) /\
    nth_error (Store.objects st1) df1 = Some (Store.frame [tus_time] rows) /\
    nth_error (Store.objects st2) df2 = Some (Store.frame [tus_time] rows) /\
    nth_error (Store.objects st2) 0%nat = Some (Store.DatetimeIndex [tus_time]) /\
    nth_error (Store.objects st2) 1%nat = Some (Store.LocationObject tus).
Proof.
  destruct SampleFacts.tus_returns as [rows Hrows].
  destruct (StoreResultFacts.ephemeris_returns_in_store
              4%nat 0%nat 1%nat [tus_time] tus 101325 12
              (Store.caller [tus_time] tus) rows eq_refl eq_refl Hrows)
    as (df1 & st1 & Hrun1).
  destruct (StoreResultFacts.ephemeris_returned_in_store
              4%nat 0%nat 1%nat [tus_time] tus 101325 12
              (Store.caller [tus_time] tus) st1 df1 eq_refl eq_refl Hrun1)
    as (rows1 & news1 & _ & Hst1 & _).
  assert (Ht1 : nth_error (Store.objects st1) 0%nat
                = Some (Store.DatetimeIndex [tus_time]))
    by (rewrite Hst1; reflexivity).
  assert (Hl1 : nth_error (Store.objects st1) 1%nat
                = Some (Store.LocationObject tus))
    by (rewrite Hst1; reflexivity).
  destruct (StoreResultFacts.ephemeris_returns_in_store
              4%nat 0%nat 1%nat [tus_time] tus 101325 12 st1 rows Ht1 Hl1 Hrows)
    as (df2 & st2 & Hrun2).
  destruct (ephemeris_is_deterministic_and_keeps_its_inputs
              4%nat 4%nat 0%nat 1%nat 0%nat 1%nat [tus_time] tus 101325 12
              (Store.caller [tus_time] tus) st1 st1 st2 df1 df2
              eq_refl eq_refl Ht1 Hl1 Hrun1 Hrun2)
    as ((rows' & _ & Hdf1 & Hdf2) & (_ & _ & Ht2 & Hl2) & _).
  exists df1, df2, st1, st2, rows'.
  repeat split; assumption.
Defined.

(** ** The other calculators and the wrapper *)

Module CalculatorFacts.

Section WithParameters.

Variable altitude : Location -> R.
Variable month_of : Z -> Z -> Z.
Variable day_of : Z -> Z -> Z.
Variable SpaOutput : Type.
Variable spa_calc : SpaArguments -> SpaOutput.
Variable compute : Observer -> R * R.

(** The arguments [spa] gives [spa_calc] for one instant. *)
Lemma spa_loop_maps (location : Location) (time_utc : list Timestamp) :
  forall spa_out : list SpaOutput,
    spa_loop altitude month_of day_of SpaOutput spa_calc location time_utc
             spa_out
    = spa_out ++
      map (fun date =>
             spa_calc {| spa_year := year date;
                         spa_month := month_of (year date) (dayofyear date);
                         spa_day := day_of (year date) (dayofyear date);
                         spa_hour := hour date;
                         spa_minute := minute date;
                         spa_second := second date;
                         spa_timezone := 0;
                         spa_latitude := latitude location;
                         spa_longitude := longitude location;
                         spa_elevation := altitude location |}) time_utc.
Proof.
  induction time_utc as [| date rest IH]; intros spa_out; cbn [spa_loop map].
  - rewrite app_nil_r. reflexivity.
  - rewrite IH, <- app_assoc. reflexivity.
Qed.

(** The observer a pass of [pyephem] computes the sun for at the instant
    [thetime]: the date of no other instant is left in it. *)
Lemma sun_loop_maps (index : list Timestamp) :
  forall (obs : Observer) (alts azis : list R),
    snd (sun_loop compute obs index alts azis)
    = (alts ++ map (fun thetime => fst (compute (set_date obs thetime))) index,
       azis ++ map (fun thetime => snd (compute (set_date obs thetime))) index).
Proof.
  induction index as [| thetime rest IH]; intros obs alts azis;
    cbn [sun_loop map].
  - rewrite !app_nil_r. reflexivity.
  - rewrite IH, <- !app_assoc. reflexivity.
Qed.

Lemma sun_loop_pressure (index : list Timestamp) :
  forall (obs : Observer) (alts azis : list R) (pressure : R)
         (thetime : Timestamp),
    set_date (set_pressure (fst (sun_loop compute obs index alts azis))
                           pressure) thetime
    = set_date (set_pressure obs pressure) thetime.
Proof.
  induction index as [| t rest IH]; intros obs alts azis pressure thetime;
    cbn [sun_loop]; [reflexivity |].
  rewrite IH. reflexivity.
Qed.

(** [pyephem] without its loops. *)
Lemma pyephem_columns (time_utc : list Timestamp) (location : Location)
      (pressure temperature : R) :
  pyephem altitude compute time_utc location pressure temperature
  = let obs := _ephem_setup altitude location pressure temperature in
    let apparent thetime := compute (set_date obs thetime) in
    let true_ thetime := compute (set_date (set_pressure obs 0) thetime) in
    Store.DataFrame time_utc
      [("apparent_elevation"%string,
        map (fun t => NumPy.degrees (fst (apparent t))) time_utc);
       ("apparent_azimuth"%string,
        map (fun t => NumPy.degrees (snd (apparent t))) time_utc);
       ("elevation"%string,
        map (fun t => NumPy.degrees (fst (true_ t))) time_utc);
       ("azimuth"%string,
        map (fun t => NumPy.degrees (snd (true_ t))) time_utc);
       ("apparent_zenith"%string,
        map (fun t => 90 - NumPy.degrees (fst (apparent t))) time_utc);
       ("zenith"%string,
        map (fun t => 90 - NumPy.degrees (fst (true_ t))) time_utc)].
Proof.
  unfold pyephem. cbv zeta.
  set (obs := _ephem_setup altitude location pressure temperature).
  pose proof (sun_loop_maps time_utc obs [] []) as H1.
  destruct (sun_loop compute obs time_utc [] []) as [obs1 [alts1 azis1]] eqn:E1.
  cbn [snd app] in H1. injection H1 as -> ->.
  pose proof (sun_loop_maps time_utc (set_pressure obs1 0) [] []) as H2.
  destruct (sun_loop compute (set_pressure obs1 0) time_utc [] [])
    as [obs2 [alts2 azis2]] eqn:E2.
  cbn [snd app] in H2. injection H2 as -> ->.
  assert (Hobs : forall t, set_date (set_pressure obs1 0) t
                           = set_date (set_pressure obs 0) t).
  { intros t. replace obs1 with (fst (sun_loop compute obs time_utc [] []))
      by (rewrite E1; reflexivity).
    apply sun_loop_pressure. }
  cbn [app map fst snd column String.eqb Ascii.eqb Bool.eqb].
  rewrite !map_map.
  f_equal. repeat (f_equal; try (apply map_ext; intros t; rewrite ?Hobs; reflexivity)).
Qed.

End WithParameters.

(** [str.lower] changes no lower-case letter. *)
Lemma lower_char_idempotent (c : Ascii.ascii) :
  lower_char (lower_char c) = lower_char c.
Proof.
  destruct c as [[] [] [] [] [] [] [] []]; reflexivity.
Qed.

Lemma lower_idempotent (s : String.string) : lower (lower s) = lower s.
Proof.
  induction s as [| c s IH]; cbn [lower]; [reflexivity |].
  rewrite lower_char_idempotent, IH. reflexivity.
Qed.

End CalculatorFacts.

(** X10.  The true position [pyephem] returns does not depend on the
    [pressure] argument: line 189 sets the observer's pressure to 0
    before the second pass, whose results fill the columns [elevation]
    and [azimuth], and [zenith] after them. *)
Theorem pyephem_true_position_ignores_pressure
        (altitude : Location -> R) (compute : Observer -> R * R)
        (time_utc : list Timestamp) (location : Location)
        (pressure pressure' temperature : R) :
  column_of "elevation"%string
            (pyephem altitude compute time_utc location pressure temperature)
  = column_of "elevation"%string
              (pyephem altitude compute time_utc location pressure' temperature) /\
  column_of "azimuth"%string
            (pyephem altitude compute time_utc location pressure temperature)
  = column_of "azimuth"%string
              (pyephem altitude compute time_utc location pressure' temperature) /\
  column_of "zenith"%string
            (pyephem altitude compute time_utc location pressure temperature)
  = column_of "zenith"%string
              (pyephem altitude compute time_utc location pressure' temperature).
Proof.
  rewrite !CalculatorFacts.pyephem_columns. cbv zeta.
  cbn [column_of column String.eqb Ascii.eqb Bool.eqb].
  repeat split; reflexivity.
Qed.

(** X11.  At a pressure of 0 the apparent position [pyephem] returns is
    the true position: both passes compute the sun for the same
    observer, and the date the first pass left in it is overwritten
    before the second pass reads it. *)
Theorem pyephem_without_atmosphere
        (altitude : Location -> R) (compute : Observer -> R * R)
        (time_utc : list Timestamp) (location : Location) (temperature : R) :
  column_of "apparent_elevation"%string
            (pyephem altitude compute time_utc location 0 temperature)
  = column_of "elevation"%string
              (pyephem altitude compute time_utc location 0 temperature) /\
  column_of "apparent_azimuth"%string
            (pyephem altitude compute time_utc location 0 temperature)
  = column_of "azimuth"%string
              (pyephem altitude compute time_utc location 0 temperature) /\
  column_of "apparent_zenith"%string
            (pyephem altitude compute time_utc location 0 temperature)
  = column_of "zenith"%string
              (pyephem altitude compute time_utc location 0 temperature).
Proof.
  rewrite !CalculatorFacts.pyephem_columns. cbv zeta.
  cbn [column_of column String.eqb Ascii.eqb Bool.eqb].
  assert (E : set_pressure (_ephem_setup altitude location 0 temperature) 0
              = _ephem_setup altitude location 0 temperature).
  { unfold set_pressure, _ephem_setup. cbn. f_equal. lra. }
  rewrite E. repeat split; reflexivity.
Qed.

(** X12.  [spa] reads each instant down to the second: two indexes whose
    instants agree in year, day of the year, hour, minute and second get
    the same outputs of [spa_calc], whatever their microseconds, and so
    the same columns. *)
Theorem spa_reads_no_microsecond
        (altitude : Location -> R) (month_of day_of : Z -> Z -> Z)
        (SpaOutput : Type) (spa_calc : SpaArguments -> SpaOutput)
        (zenith_entry azimuth_entry : SpaOutput -> R)
        (spa_py_importable : bool)
        (location : Location) (time_utc time_utc' : list Timestamp) :
  Forall2 (fun t t' => year t = year t' /\ dayofyear t = dayofyear t' /\
                       hour t = hour t' /\ minute t = minute t' /\
                       second t = second t') time_utc time_utc' ->
  spa_loop altitude month_of day_of SpaOutput spa_calc location time_utc []
  = spa_loop altitude month_of day_of SpaOutput spa_calc location time_utc' []
  /\
  forall frame frame',
    spa altitude month_of day_of SpaOutput spa_calc zenith_entry azimuth_entry
        spa_py_importable time_utc location false
    = Returned (Columns SpaOutput frame) ->
    spa altitude month_of day_of SpaOutput spa_calc zenith_entry azimuth_entry
        spa_py_importable time_utc' location false
    = Returned (Columns SpaOutput frame') ->
    column_of "zenith"%string frame = column_of "zenith"%string frame' /\
    column_of "azimuth"%string frame = column_of "azimuth"%string frame' /\
    column_of "elevation"%string frame = column_of "elevation"%string frame'.
Proof.
  intros H.
  assert (E : spa_loop altitude month_of day_of SpaOutput spa_calc location
                       time_utc []
              = spa_loop altitude month_of day_of SpaOutput spa_calc location
                         time_utc' []).
  { rewrite !CalculatorFacts.spa_loop_maps. cbn [app].
    induction H as [| t t' l l' (Hy & Hd & Hh & Hm & Hs) _ IH]; cbn [map];
      [reflexivity |].
    rewrite IH, Hy, Hd, Hh, Hm, Hs. reflexivity. }
  split; [exact E |].
  intros frame frame'. unfold spa. rewrite E.
  destruct spa_py_importable; [| discriminate].
  destruct (spa_loop altitude month_of day_of SpaOutput spa_calc location
                     time_utc' []) as [| out spa_out]; [discriminate |].
  intros [= <-] [= <-].
  cbn [column_of column String.eqb Ascii.eqb Bool.eqb].
  repeat split; reflexivity.
Qed.

Lemma spa_reads_no_microsecond_witness :
  spa_loop sea_level january first_day (R * R) null_spa_calc tus
           [tus_time] []
  = spa_loop sea_level january first_day (R * R) null_spa_calc tus
             [{| year := 2003; dayofyear := 290; hour := 19; minute := 30;
                 second := 0; microsecond := 999999 |}] [].
Proof.
  refine (proj1 (spa_reads_no_microsecond
                   sea_level january first_day (R * R) null_spa_calc fst snd
                   true tus [tus_time] _ _)).
  constructor; [repeat split; reflexivity | constructor].
Defined.

(** X13.  A [method] that is none of ['spa'], ['pyephem'] and
    ['ephemeris'] once in lower case makes [get_solarposition] raise
    [ValueError], whatever the other arguments; no calculator runs. *)
Theorem get_solarposition_rejects_other_methods
        (altitude : Location -> R) (month_of day_of : Z -> Z -> Z)
        (SpaOutput : Type) (spa_calc : SpaArguments -> SpaOutput)
        (zenith_entry azimuth_entry : SpaOutput -> R)
        (spa_py_importable : bool) (compute : Observer -> R * R)
        (fuel : nat) (time : time_argument) (location : Location)
        (method : String.string) (pressure temperature : R) :
  lower method <> "spa"%string ->
  lower method <> "pyephem"%string ->
  lower method <> "ephemeris"%string ->
  get_solarposition altitude month_of day_of SpaOutput spa_calc
                    zenith_entry azimuth_entry spa_py_importable compute
                    fuel time location method pressure temperature
  = Raised ValueError.
Proof.
  intros Hspa Hpy Heph. unfold get_solarposition.
  apply String.eqb_neq in Hspa, Hpy, Heph.
  rewrite Hspa, Hpy, Heph. reflexivity.
Qed.

Lemma get_solarposition_rejects_other_methods_witness :
  get_solarposition sea_level january first_day (R * R) null_spa_calc
                    fst snd true null_compute
                    0 (A_datetime tus_time) tus "NREL"%string 101325 12
  = Raised ValueError.
Proof.
  apply get_solarposition_rejects_other_methods; discriminate.
Defined.

(** X14.  [get_solarposition] matches [method] without regard to case:
    a name and its lower-case form give the same outcome. *)
Theorem get_solarposition_ignores_case
        (altitude : Location -> R) (month_of day_of : Z -> Z -> Z)
        (SpaOutput : Type) (spa_calc : SpaArguments -> SpaOutput)
        (zenith_entry azimuth_entry : SpaOutput -> R)
        (spa_py_importable : bool) (compute : Observer -> R * R)
        (fuel : nat) (time : time_argument) (location : Location)
        (method : String.string) (pressure temperature : R) :
  get_solarposition altitude month_of day_of SpaOutput spa_calc
                    zenith_entry azimuth_entry spa_py_importable compute
                    fuel time location (lower method) pressure temperature
  = get_solarposition altitude month_of day_of SpaOutput spa_calc
                      zenith_entry azimuth_entry spa_py_importable compute
                      fuel time location method pressure temperature.
Proof.
  unfold get_solarposition. cbv zeta.
  rewrite CalculatorFacts.lower_idempotent. reflexivity.
Qed.

(** X15.  With the method ['spa'], in any case, the outcome of
    [get_solarposition] is that of [spa] on the index and depends neither
    on [pressure] nor on [temperature]: [spa] is called without them.
    Where [spa_py] imports and the index is not empty a frame of columns
    is returned; where it does not import the call raises [ImportError],
    and on an empty index [KeyError]. *)
Theorem get_solarposition_spa_ignores_the_air
        (altitude : Location -> R) (month_of day_of : Z -> Z -> Z)
        (SpaOutput : Type) (spa_calc : SpaArguments -> SpaOutput)
        (zenith_entry azimuth_entry : SpaOutput -> R)
        (spa_py_importable : bool) (compute : Observer -> R * R)
        (fuel fuel' : nat) (time : time_argument) (location : Location)
        (method : String.string) (pressure temperature pressure' temperature' : R) :
  lower method = "spa"%string ->
  get_solarposition altitude month_of day_of SpaOutput spa_calc
                    zenith_entry azimuth_entry spa_py_importable compute
                    fuel time location method pressure temperature
  = get_solarposition altitude month_of day_of SpaOutput spa_calc
                      zenith_entry azimuth_entry spa_py_importable compute
                      fuel' time location method pressure' temperature' /\
  get_solarposition altitude month_of day_of SpaOutput spa_calc
                    zenith_entry azimuth_entry spa_py_importable compute
                    fuel time location method pressure temperature
  = spa altitude month_of day_of SpaOutput spa_calc
        zenith_entry azimuth_entry spa_py_importable
        (match time with A_datetime t => [t] | An_index l => l end)
        location false /\
  (spa_py_importable = true -> time <> An_index [] ->
   exists frame,
     get_solarposition altitude month_of day_of SpaOutput spa_calc
                       zenith_entry azimuth_entry spa_py_importable compute
                       fuel time location method pressure temperature
     = Returned (Columns SpaOutput frame)) /\
  (spa_py_importable = false ->
   get_solarposition altitude month_of day_of SpaOutput spa_calc
                     zenith_entry azimuth_entry spa_py_importable compute
                     fuel time location method pressure temperature
   = Raised ImportError) /\
  (spa_py_importable = true -> time = An_index [] ->
   get_solarposition altitude month_of day_of SpaOutput spa_calc
                     zenith_entry azimuth_entry spa_py_importable compute
                     fuel time location method pressure temperature
   = Raised KeyError).
Proof.
  intros H. unfold get_solarposition. cbv zeta. rewrite H.
  cbn [String.eqb Ascii.eqb Bool.eqb].
  split; [reflexivity |]. split; [reflexivity |].
  unfold spa. split; [| split].
  - intros -> Hne.
    rewrite CalculatorFacts.spa_loop_maps.
    destruct time as [t | [| t l]]; [| contradiction | ];
      cbn [app map]; eexists; reflexivity.
  - intros ->. reflexivity.
  - intros -> ->. reflexivity.
Qed.

Lemma get_solarposition_spa_ignores_the_air_witness :
  get_solarposition sea_level january first_day (R * R) null_spa_calc
                    fst snd true null_compute
                    4 (A_datetime tus_time) tus "SPA"%string 101325 12
  = get_solarposition sea_level january first_day (R * R) null_spa_calc
                      fst snd true null_compute
                      0 (A_datetime tus_time) tus "SPA"%string 0 (-273) /\
  exists frame,
    get_solarposition sea_level january first_day (R * R) null_spa_calc
                      fst snd true null_compute
                      4 (A_datetime tus_time) tus "SPA"%string 101325 12
    = Returned (Columns (R * R) frame).
Proof.
  destruct (get_solarposition_spa_ignores_the_air
              sea_level january first_day (R * R) null_spa_calc
              fst snd true null_compute 4 0 (A_datetime tus_time) tus
              "SPA"%string 101325 12 0 (-273) eq_refl)
    as (Hsame & _ & Hreturns & _).
  split; [exact Hsame |].
  apply Hreturns; [reflexivity | discriminate].
Defined.

(** X16.  For a single [datetime] that pandas represents and the method
    ['ephemeris'], [get_solarposition] returns the frame of a table of
    one row, unless the temperature is -273. *)
Theorem get_solarposition_of_one_datetime
        (altitude : Location -> R) (month_of day_of : Z -> Z -> Z)
        (SpaOutput : Type) (spa_calc : SpaArguments -> SpaOutput)
        (zenith_entry azimuth_entry : SpaOutput -> R)
        (spa_py_importable : bool) (compute : Observer -> R * R)
        (fuel : nat) (t : Timestamp) (location : Location)
        (method : String.string) (pressure temperature : R) :
  lower method = "ephemeris"%string ->
  (4 <= fuel)%nat ->
  valid_timestamp t = true ->
  273 + temperature <> 0 ->
  exists row,
    ephemeris fuel [t] location pressure temperature = Returned [row] /\
    get_solarposition altitude month_of day_of SpaOutput spa_calc
                      zenith_entry azimuth_entry spa_py_importable compute
                      fuel (A_datetime t) location method pressure temperature
    = Returned (Columns SpaOutput (Store.frame [t] [row])).
Proof.
  intros Hm Hfuel Hvalid Hnz.
  destruct (EphemerisFacts.ephemeris_returns fuel [t] location pressure
              temperature Hfuel) as [rows Hrows];
    [discriminate | constructor; [exact Hvalid | constructor] | exact Hnz |].
  assert (Hlen : length rows = 1%nat).
  { pose proof Hrows as H.
    apply EphemerisFacts.ephemeris_returned in H.
    destruct H as (s & Hs & _ & ->).
    apply KeplerStateFacts.solve_shape in Hs; [| reflexivity].
    cbn [map length] in Hs.
    rewrite NumPyFacts.zipWith_length; [reflexivity | symmetry; exact Hs]. }
  destruct rows as [| row [| row' rows]]; try discriminate.
  exists row. split; [exact Hrows |].
  unfold get_solarposition. cbv zeta. rewrite Hm.
  cbn [String.eqb Ascii.eqb Bool.eqb]. rewrite Hrows. reflexivity.
Qed.

Lemma get_solarposition_of_one_datetime_witness :
  exists row,
    ephemeris 4 [tus_time] tus 101325 12 = Returned [row] /\
    get_solarposition sea_level january first_day (R * R) null_spa_calc
                      fst snd true null_compute
                      4 (A_datetime tus_time) tus "Ephemeris"%string 101325 12
    = Returned (Columns (R * R) (Store.frame [tus_time] [row])).
Proof.
  apply (get_solarposition_of_one_datetime
           sea_level january first_day (R * R) null_spa_calc fst snd
           true null_compute 4 tus_time tus "Ephemeris"%string 101325 12).
  - reflexivity.
  - apply le_n.
  - reflexivity.
  - lra.
Defined.

(** ** Longitude and solar time *)

(** X17.  Moving a site east by [delta] degrees of longitude advances
    its solar time by [delta / 15] hours, up to whole days: the local
    sidereal time of line 309 and the hour angle of line 340 move by
    [delta] up to whole turns. *)
Theorem solar_time_follows_longitude
        (lat lon delta : R) (t : Timestamp) (EccenAnom : R) :
  exists j : Z,
    SolarTime {| latitude := lat; longitude := lon + delta |} t EccenAnom
    = SolarTime {| latitude := lat; longitude := lon |} t EccenAnom
      + delta / 15 - 24 * IZR j.
Proof.
  assert (Hwrap : forall h, exists b : Z,
             Line.wrap_hour_angle h = h - 360 * IZR b).
  { intros h. unfold Line.wrap_hour_angle.
    destruct (NumPy.gt (Rabs h) 180); [exists 1%Z | exists 0%Z];
      reflexivity. }
  unfold SolarTime, HrAngle, HrAngle_338, LocAST, Line.local_sidereal_time,
    Longitude. cbn [longitude].
  destruct (NumPyFacts.mod_congruent
              (360 + GMSTi t - -1 * (lon + delta)) 360) as [k' Hk'].
  destruct (NumPyFacts.mod_congruent (360 + GMSTi t - -1 * lon) 360)
    as [k Hk].
  rewrite Hk', Hk.
  destruct (Hwrap (360 + GMSTi t - -1 * (lon + delta) - IZR k' * 360
                   - RtAscen t EccenAnom)) as [b' Hb'].
  destruct (Hwrap (360 + GMSTi t - -1 * lon - IZR k * 360
                   - RtAscen t EccenAnom)) as [b Hb].
  rewrite Hb', Hb.
  exists (k' - k + b' - b)%Z.
  repeat (rewrite ?minus_IZR, ?plus_IZR). lra.
Qed.

(** ** The air and the true position *)

(** X18.  The true position does not depend on the air: two calls that
    differ in [pressure] and [temperature] only, and both return, give
    the same [elevation], [azimuth], [zenith] and [solar_time] in every
    row. *)
Theorem true_position_ignores_the_air
        (fuel : nat) (time_utc : list Timestamp) (location : Location)
        (pressure temperature pressure' temperature' : R)
        (rows rows' : list SolarPosition) :
  ephemeris fuel time_utc location pressure temperature = Returned rows ->
  ephemeris fuel time_utc location pressure' temperature' = Returned rows' ->
  map elevation rows = map elevation rows' /\
  map azimuth rows = map azimuth rows' /\
  map zenith rows = map zenith rows' /\
  map solar_time rows = map solar_time rows'.
Proof.
  intros H H'.
  apply EphemerisFacts.ephemeris_returned in H, H'.
  destruct H as (s & Hs & _ & ->). destruct H' as (s' & Hs' & _ & ->).
  assert (s' = s) by congruence. subst s'.
  rewrite !StoreFacts.map_zipWith.
  cbn [elevation azimuth zenith solar_time row].
  repeat split; reflexivity.
Qed.

Lemma true_position_ignores_the_air_witness :
  exists rows rows',
    ephemeris 4 [tus_time] tus 101325 12 = Returned rows /\
    ephemeris 4 [tus_time] tus 0 12 = Returned rows' /\
    map elevation rows = map elevation rows' /\
    map solar_time rows = map solar_time rows'.
Proof.
  destruct SampleFacts.tus_returns as [rows H].
  destruct SampleFacts.tus_returns_at_zero_pressure as [rows' H'].
  exists rows, rows'.
  destruct (true_position_ignores_the_air _ _ _ _ _ _ _ _ _ H H')
    as (He & _ & _ & Hs).
  repeat split; assumption.
Defined.

(** ** The rest of the batch *)

Module BatchFacts.
Import NumPy NumPyFacts Kepler.

(** The state the loop returns: at every index [EccenAnom] is the update
    of [E], and within the tolerance of it. *)
Lemma solve_returns_a_small_step (fuel : nat) (M e : list R) (s : state) :
  Forall2 (fun m ec => Rabs ec <= 0.02) M e ->
  solve fuel M e = Returned s ->
  Forall4 (fun m ec x y =>
             (Rabs ec <= 0.02 /\ y = kepler_step m ec x) /\
             Rabs (y - x) <= 0.0001)
          M e (E s) (EccenAnom s).
Proof.
  intros He Hs.
  pose proof (KeplerStateFacts.loop_keeps_step _ fuel M e (init M) s
                (KeplerStateFacts.init_is_a_step _ M e He) Hs) as Hinv.
  destruct (KeplerFacts.loop_returns_within_tolerance _ _ _ _ _ Hs)
    as (r & Hr & Hsmall).
  apply (KeplerStateFacts.Forall4_within_residual _ r) in Hinv.
  - revert Hinv. apply KeplerStateFacts.Forall4_impl.
    intros m ec x y [Hp Hd]. split; [exact Hp | lra].
  - intros v Hv. apply (max_upper _ _ _ Hr Hv).
Qed.

Lemma Forall4_nth_error {A B C D : Type} (P : A -> B -> C -> D -> Prop)
      (la : list A) (lb : list B) (lc : list C) (ld : list D) :
  Forall4 P la lb lc ld ->
  forall (i : nat) (a : A) (b : B) (d : D),
    nth_error la i = Some a -> nth_error lb i = Some b ->
    nth_error ld i = Some d ->
    exists c, P a b c d.
Proof.
  intros H. induction H as [| a0 b0 c0 d0 la lb lc ld Hp _ IH];
    intros [| i] a b d Ha Hb Hd; simpl in *; try discriminate.
  - injection Ha as <-. injection Hb as <-. injection Hd as <-.
    exists c0. exact Hp.
  - apply (IH i a b d Ha Hb Hd).
Qed.

End BatchFacts.

(** X19.  The loop runs on the whole batch, so the eccentric anomaly of
    an instant depends on the instants it is computed with; but two
    batches give the same mean anomaly and eccentricity (at most 0.02)
    eccentric anomalies that differ by at most 4.1e-6 degrees. *)
Theorem batch_changes_eccentric_anomaly_little
        (fuel fuel' : nat) (MeanAnom Eccen MeanAnom' Eccen' : list R)
        (s s' : Kepler.state) (i j : nat) (m ec y y' : R) :
  Forall2 (fun m ec => Rabs ec <= 0.02) MeanAnom Eccen ->
  Forall2 (fun m ec => Rabs ec <= 0.02) MeanAnom' Eccen' ->
  Kepler.solve fuel MeanAnom Eccen = Returned s ->
  Kepler.solve fuel' MeanAnom' Eccen' = Returned s' ->
  nth_error MeanAnom i = Some m -> nth_error Eccen i = Some ec ->
  nth_error (Kepler.EccenAnom s) i = Some y ->
  nth_error MeanAnom' j = Some m -> nth_error Eccen' j = Some ec ->
  nth_error (Kepler.EccenAnom s') j = Some y' ->
  Rabs (y - y') <= 4.1e-6.
Proof.
  intros He He' Hs Hs' Hm Hec Hy Hm' Hec' Hy'.
  destruct (BatchFacts.Forall4_nth_error _ _ _ _ _
              (BatchFacts.solve_returns_a_small_step _ _ _ _ He Hs)
              i m ec y Hm Hec Hy) as (x & [Hsmall Hstep] & Hd).
  destruct (BatchFacts.Forall4_nth_error _ _ _ _ _
              (BatchFacts.solve_returns_a_small_step _ _ _ _ He' Hs')
              j m ec y' Hm' Hec' Hy') as (x' & [_ Hstep'] & Hd').
  pose proof (KeplerFacts.kepler_step_contracts m ec y x) as C1.
  pose proof (KeplerFacts.kepler_step_contracts m ec y' x') as C2.
  pose proof (KeplerFacts.kepler_step_contracts m ec y y') as C3.
  rewrite <- Hstep in C1. rewrite <- Hstep' in C2.
  set (sy := kepler_step m ec y) in *. set (sy' := kepler_step m ec y') in *.
  pose proof (Rabs_pos ec) as Hec0.
  assert (B1 : Rabs (sy - y) <= 0.02 * 0.0001).
  { eapply Rle_trans; [exact C1 |]. apply Rmult_le_compat; try lra.
    apply Rabs_pos. }
  assert (B2 : Rabs (sy' - y') <= 0.02 * 0.0001).
  { eapply Rle_trans; [exact C2 |]. apply Rmult_le_compat; try lra.
    apply Rabs_pos. }
  assert (B3 : Rabs (sy - sy') <= 0.02 * Rabs (y - y')).
  { eapply Rle_trans; [exact C3 |]. apply Rmult_le_compat_r; [apply Rabs_pos | lra]. }
  assert (T : Rabs (y - y')
              <= Rabs (sy - y) + Rabs (sy - sy') + Rabs (sy' - y')).
  { replace (y - y') with (- (sy - y) + (sy - sy') + (sy' - y')) by ring.
    eapply Rle_trans; [apply Rabs_triang |].
    apply Rplus_le_compat_r.
    eapply Rle_trans; [apply Rabs_triang |].
    rewrite Rabs_Ropp. lra. }
  lra.
Qed.

Lemma batch_changes_eccentric_anomaly_little_witness :
  exists (s s' : Kepler.state) (y y' : R),
    Kepler.solve 4 [90] [0.0167] = Returned s /\
    Kepler.solve 4 [200; 90] [0.0167; 0.0167] = Returned s' /\
    nth_error (Kepler.EccenAnom s) 0 = Some y /\
    nth_error (Kepler.EccenAnom s') 1 = Some y' /\
    Rabs (y - y') <= 4.1e-6.
Proof.
  assert (He : Forall2 (fun m ec : R => Rabs ec <= 0.02) [90] [0.0167]).
  { constructor; [apply Rabs_le; lra | constructor]. }
  assert (He' : Forall2 (fun m ec : R => Rabs ec <= 0.02)
                        [200; 90] [0.0167; 0.0167]).
  { constructor; [apply Rabs_le; lra |].
    constructor; [apply Rabs_le; lra | constructor]. }
  destruct (KeplerFacts.solve_converges 4 [90] [0.0167] (le_n 4))
    as (s & _ & Hs & _); [discriminate | exact He |].
  destruct (KeplerFacts.solve_converges 4 [200; 90] [0.0167; 0.0167] (le_n 4))
    as (s' & _ & Hs' & _); [discriminate | exact He' |].
  pose proof (KeplerStateFacts.solve_shape 4 [90] [0.0167] s eq_refl Hs) as Hl.
  pose proof (KeplerStateFacts.solve_shape 4 [200; 90] [0.0167; 0.0167] s'
                eq_refl Hs') as Hl'.
  destruct (Kepler.EccenAnom s) as [| y [| ? ?]] eqn:Ey; try discriminate.
  destruct (Kepler.EccenAnom s') as [| y0 [| y' [| ? ?]]] eqn:Ey';
    try discriminate.
  exists s, s', y, y'. rewrite Ey, Ey'.
  split; [exact Hs |]. split; [exact Hs' |].
  split; [reflexivity |]. split; [reflexivity |].
  apply (batch_changes_eccentric_anomaly_little
           4 4 [90] [0.0167] [200; 90] [0.0167; 0.0167] s s' 0 1 90 0.0167 y y'
           He He' Hs Hs'); try reflexivity.
  - rewrite Ey. reflexivity.
  - rewrite Ey'. reflexivity.
Defined.

(** ** The count of days *)

(** X20.  Line 297 counts a leap day every fourth year and knows no
    century rule: the days counted up to the beginning of a year grow by
    1461 over any four years, also across 1700, 1800, 1900, 2100 and
    2200, which have no leap day in the calendar of the index. *)
Theorem year_begin_counts_a_leap_day_every_four_years (t t' : Timestamp) :
  year t' = (year t + 4)%Z -> YrBegin t' = YrBegin t + 1461.
Proof.
  intros Hy. unfold YrBegin, Yr. rewrite Hy, plus_IZR.
  pose proof (NumPyFacts.floor_bounds ((IZR (year t) - 1900 - 1) / 4)) as Hf.
  rewrite (NumPyFacts.floor_unique
             ((IZR (year t) + 4 - 1900 - 1) / 4)
             (Int_part ((IZR (year t) - 1900 - 1) / 4) + 1)).
  - rewrite plus_IZR. unfold NumPy.floor. lra.
  - rewrite plus_IZR. unfold NumPy.floor in Hf. lra.
Qed.

Lemma year_begin_counts_a_leap_day_every_four_years_witness :
  YrBegin {| year := 2103; dayofyear := 1; hour := 0; minute := 0;
             second := 0; microsecond := 0 |}
  = YrBegin {| year := 2099; dayofyear := 1; hour := 0; minute := 0;
               second := 0; microsecond := 0 |} + 1461.
Proof.
  apply year_begin_counts_a_leap_day_every_four_years. reflexivity.
Defined.
